(** * Anomaly detection over a data stream: the scoring function and the
      CSV export of [main.py], embedded and verified.

    The program is a thin driver around two libraries: the estimator
    [IsolationForest] and the table type [DataFrame] with its [rolling]
    windows.  The driver is embedded statement by statement in a state and
    exception monad; the library calls it makes are given the meaning their
    documentation states:

    - 64-bit floats are idealised as real numbers, with the one non-number
      [NaN] kept as a constructor of its own;
    - the estimator's checks are the documented ones: [fit] rejects a
      contamination outside (0, 0.5], and an array with no sample or with a
      [NaN], by a [ValueError], before it grows the forest (releases of the
      library differ on [NaN]; the properties are about batches of
      numbers);
    - a list indexer [df[[...]]] raises one [KeyError] about all the labels
      that are missing, a scalar indexer [df[...]] one about its label;
    - the construction of the random trees and the score they assign are an
      interface ([Sklearn]): nothing is assumed about them beyond their
      types, so every theorem holds for any forest implementation; which
      point of the scenario batch is flagged is stated for the forests that
      score the value 100 as its one outlier. *)

From Stdlib Require Import Reals Lra Lia ZArith.
From stdpp Require Import gmap strings list fin_maps.

Open Scope R_scope.

(** ** Cells and columns *)

(** One cell of a column: a float, the missing value, or a 64-bit integer
    (labels; timestamps as their count of nanoseconds). *)
Inductive cell : Type :=
  | Float (x : R)
  | NaN
  | Int (z : Z).

(** The number a cell holds, if any ([NaN] is skipped by every window
    aggregate and rejected by the estimator). *)
Definition numeric (c : cell) : option R :=
  match c with
  | Float x => Some x
  | NaN => None
  | Int z => Some (IZR z)
  end.

(** ** Rolling windows: [Series.rolling(window, min_periods)] *)

Module Rolling.

(** Sum of a list of observations. *)
Fixpoint total (xs : list R) : R :=
  match xs with
  | [] => 0
  | x :: rest => x + total rest
  end.

Definition average (xs : list R) : R := total xs / INR (length xs).

(** Sum of squared deviations from the average. *)
Definition ssqdm (xs : list R) : R :=
  total (map (λ x, (x - average xs) * (x - average xs)) xs).

(** [.mean()]: the average of the observations in the window, [NaN] when
    there is none. *)
Definition mean (obs : list R) : cell :=
  match obs with
  | [] => NaN
  | _ :: _ => Float (average obs)
  end.

(** [.std()] with the default [ddof = 1]: the square root of the unbiased
    variance; [NaN] unless the window holds more than [ddof] observations. *)
Definition std (obs : list R) : cell :=
  if (length obs <=? 1)%nat then NaN
  else Float (sqrt (ssqdm obs / (INR (length obs) - 1))).

(** The window slides over the column: the new cell enters at the back and
    the window keeps its last [window] cells. *)
Definition push (window : nat) (buf : list cell) (c : cell) : list cell :=
  drop (length (buf ++ [c]) - window) (buf ++ [c]).

(** The aggregate of one window: only the cells that hold a number count,
    and fewer than [min_periods] of them give [NaN]. *)
Definition emit (min_periods : nat) (agg : list R → cell) (buf : list cell) : cell :=
  let obs := omap numeric buf in
  if (min_periods <=? length obs)%nat then agg obs else NaN.

Fixpoint roll (window min_periods : nat) (agg : list R → cell)
    (buf : list cell) (col : list cell) : list cell :=
  match col with
  | [] => []
  | c :: rest =>
      let buf' := push window buf c in
      emit min_periods agg buf' :: roll window min_periods agg buf' rest
  end.

Definition rolling (window min_periods : nat) (agg : list R → cell)
    (col : list cell) : list cell :=
  roll window min_periods agg [] col.

End Rolling.

(** ** The window as the specification words it *)

(** First index of the trailing window that ends at [i]:
    [max(0, i - w + 1)]. *)
Definition window_start (w i : nat) : nat :=
  Z.to_nat (Z.max 0 (Z.of_nat i - Z.of_nat w + 1)).

(** The values at the indices [window_start w i .. i], both ends included. *)
Definition window_values (w i : nat) (xs : list R) : list R :=
  omap (λ j, xs !! j) (seq (window_start w i) (i + 1 - window_start w i)).

(** Mean of a non-empty list of values. *)
Definition sample_mean (xs : list R) : R :=
  Rolling.total xs / INR (length xs).

(** Sample standard deviation, [n - 1] in the denominator. *)
Definition sample_std (xs : list R) : R :=
  sqrt (Rolling.total (map (λ x, (x - sample_mean xs) ^ 2) xs)
        / (INR (length xs) - 1)).

(** The last [w] cells of a list. *)
Definition lastn {A} (w : nat) (l : list A) : list A := drop (length l - w) l.

(** ** Tables *)

(** A table: the length of its index and its named columns. *)
Record DataFrame : Type := {
  nrows : nat;
  columns : gmap string (list cell);
}.

(** The table with one column added or replaced. *)
Definition with_column (df : DataFrame) (name : string) (col : list cell) : DataFrame :=
  {| nrows := nrows df; columns := <[name := col]> (columns df) |}.

(** A written CSV file: the header line and the data lines. *)
Record Csv : Type := {
  header : list string;
  rows : list (list cell);
}.

(** ** Exceptions *)

Inductive exception : Type :=
  | KeyError (key : string)
  | ValueError (msg : string)
  | NameError (msg : string).

(** The classes an exception is an instance of, most specific first. *)
Definition exception_classes (e : exception) : list string :=
  match e with
  | KeyError _ => ["KeyError"; "LookupError"; "Exception"]
  | ValueError _ => ["ValueError"; "Exception"]
  | NameError _ => ["NameError"; "Exception"]
  end%string.

Definition isinstance (e : exception) (class : string) : bool :=
  bool_decide (class ∈ exception_classes e).

Inductive outcome (A : Type) : Type :=
  | Returns (a : A)
  | Raises (e : exception).
Arguments Returns {A} a.
Arguments Raises {A} e.

(** ** The estimator library, as an interface *)

(** What the program needs of the isolation forest: a seeded random source,
    the construction of the ensemble from the training values, and the
    decision score of a value (negative for an outlier).  The ensemble size,
    the contamination and the random source are all [grow] may depend on
    besides the data. *)
Class Sklearn : Type := {
  RandomState : Type;
  seeded : Z → RandomState;
  Forest : Type;
  grow : nat → R → list R → RandomState → Forest * RandomState;
  decision_function : Forest → R → R;
}.

(** The estimator object: its constructor stores the parameters and checks
    nothing. *)
Record IsolationForest : Type := {
  n_estimators : nat;
  contamination_ : R;
  random_state : option Z;
}.

Definition IsolationForest_init (contamination : R) (random_state : option Z)
    : IsolationForest :=
  {| n_estimators := 100; contamination_ := contamination;
     random_state := random_state |}.

(** Input validation of [fit] and [predict]: at least one sample, every
    entry a finite number.  Releases of the library differ on [NaN] (later
    ones let this estimator take missing values); the batches scored below
    are batches of numbers. *)
Definition check_array (X : list cell) : outcome (list R) :=
  match X with
  | [] => Raises (ValueError "Found array with 0 sample(s) while a minimum of 1 is required")
  | _ :: _ =>
      match mapM numeric X with
      | Some xs => Returns xs
      | None => Raises (ValueError "Input contains NaN")
      end
  end.

(** Parameter validation of [fit]: a contamination in (0, 0.5]. *)
Definition valid_contamination (c : R) : bool :=
  if Rlt_dec 0 c then (if Rle_dec c (1 / 2) then true else false) else false.

(** What the validation says of a contamination it rejects.  The library's
    sentence goes on with the rejected value, and releases word it
    differently; no property below depends on the wording. *)
Definition invalid_contamination : string :=
  "The 'contamination' parameter of IsolationForest must be a str among {'auto'} or a float in the range (0.0, 0.5]".

(** The label of a decision score: -1 for an outlier, 1 for an inlier. *)
Definition label_of (score : R) : Z :=
  if Rlt_dec score 0 then (-1)%Z else 1%Z.

(** ** The program state and its monad *)

Definition loc := nat.

Section Program.

Context {SK : Sklearn}.

(** The objects the program can reach: the tables on the heap, the files it
    has written, what it has printed, and the process-wide random source. *)
Record World : Type := {
  heap : gmap loc DataFrame;
  files : gmap string Csv;
  stdout : list string;
  np_random : RandomState;
}.

Definition M (A : Type) : Type := World → outcome A * World.

Definition ret {A} (a : A) : M A := λ w, (Returns a, w).

Definition raise {A} (e : exception) : M A := λ w, (Raises e, w).

Definition bind {A B} (m : M A) (k : A → M B) : M B :=
  λ w, match m w with
       | (Returns a, w') => k a w'
       | (Raises e, w') => (Raises e, w')
       end.

Definition lift {A} (o : outcome A) : M A := λ w, (o, w).

(** Reading and updating the state. *)
Definition gets {A} (f : World → A) : M A := λ w, (Returns (f w), w).

Definition modify (f : World → World) : M unit := λ w, (Returns (), f w).

#[global] Instance M_ret : MRet M := @ret.
#[global] Instance M_bind : MBind M := λ A B k m, bind m k.

Definition set_heap (h : gmap loc DataFrame) (w : World) : World :=
  {| heap := h; files := files w; stdout := stdout w; np_random := np_random w |}.

Definition set_files (f : gmap string Csv) (w : World) : World :=
  {| heap := heap w; files := f; stdout := stdout w; np_random := np_random w |}.

Definition set_stdout (o : list string) (w : World) : World :=
  {| heap := heap w; files := files w; stdout := o; np_random := np_random w |}.

Definition set_np_random (r : RandomState) (w : World) : World :=
  {| heap := heap w; files := files w; stdout := stdout w; np_random := r |}.

(** The table a reference denotes.  A reference a program holds always
    denotes an object; the last case only makes the function total. *)
Definition deref (data : loc) : M DataFrame :=
  h ← gets heap;
  match h !! data with
  | Some df => ret df
  | None => raise (NameError "unbound reference")
  end.

(** [data[name]]: one column. *)
Definition getitem (data : loc) (name : string) : M (list cell) :=
  df ← deref data;
  match columns df !! name with
  | Some col => ret col
  | None => raise (KeyError name)
  end.

(** [data[name] = col]: the column is added, or replaced, in place. *)
Definition setitem (data : loc) (name : string) (col : list cell) : M unit :=
  df ← deref data;
  if (length col =? nrows df)%nat then
    modify (λ w, set_heap (<[data := with_column df name col]> (heap w)) w)
  else raise (ValueError "Length of values does not match length of index").

(** [col == k], cell by cell. *)
Definition eq_scalar (k : Z) (col : list cell) : list bool :=
  map (λ c, match c with
            | Int z => (z =? k)%Z
            | Float x => if Req_dec_T x (IZR k) then true else false
            | NaN => false
            end) col.

(** The entries of a column at which the mask is true. *)
Fixpoint select {A} (mask : list bool) (col : list A) : list A :=
  match mask, col with
  | b :: mask', c :: col' => if b then c :: select mask' col' else select mask' col'
  | _, _ => []
  end.

(** [df[mask]]: a new table with the rows at which the mask is true. *)
Definition getitem_mask (df : DataFrame) (mask : list bool) : DataFrame :=
  {| nrows := length (filter (λ b, b = true) mask);
     columns := select mask <$> columns df |}.

(** A list of labels as the library prints it: ['a', 'b']. *)
Definition quoted (names : list string) : string :=
  "[" +:+ String.concat ", " (map (λ name, "'" +:+ name +:+ "'") names) +:+ "]".

(** The [KeyError] of a list indexer some of whose labels are no column: one
    sentence about all the labels that are missing, not a label.  The
    wording is the library's and differs between its releases; no property
    below depends on it. *)
Definition not_in_index (names missing : list string) : exception :=
  KeyError
    (if bool_decide (missing = names) then
       "None of [Index(" +:+ quoted names +:+ ", dtype='object')] are in the [columns]"
     else quoted (remove_dups missing) +:+ " not in index").

(** [df[names]]: the named columns, in the order asked for; a [KeyError]
    when one or more of them are missing. *)
Definition getitem_list (df : DataFrame) (names : list string)
    : outcome (list (list cell)) :=
  match filter (λ name, columns df !! name = None) names with
  | [] => Returns (omap (λ name, columns df !! name) names)
  | missing => Raises (not_in_index names missing)
  end.

(** [df.values] of a one-column table: the n x 1 array, one sample per row,
    as the list of its samples. *)
Definition values (cols : list (list cell)) : list cell :=
  match cols with
  | col :: _ => col
  | [] => []
  end.

(** Row [i] of a list of columns. *)
Definition row_at (cols : list (list cell)) (i : nat) : list cell :=
  omap (λ col, col !! i) cols.

(** [df[names].to_csv(filename, index=False)]. *)
Definition to_csv (df : DataFrame) (names : list string) (filename : string) : M unit :=
  cols ← lift (getitem_list df names);
  modify (λ w, set_files (<[filename := {| header := names;
                                          rows := row_at cols <$> seq 0 (nrows df) |}]> (files w)) w).

Definition print (line : string) : M unit :=
  modify (λ w, set_stdout (stdout w ++ [line]) w).

(** ** The estimator's methods *)

(** The random source [fit] draws from: a fresh one for an integer seed, the
    process-wide one otherwise. *)
Definition check_random_state (seed : option Z) : M RandomState :=
  match seed with
  | Some s => ret (seeded s)
  | None => gets np_random
  end.

Definition fit (est : IsolationForest) (X : list cell) : M Forest :=
  if valid_contamination (contamination_ est) then
    xs ← lift (check_array X);
    rs ← check_random_state (random_state est);
    let '(forest, rs') := grow (n_estimators est) (contamination_ est) xs rs in
    match random_state est with
    | Some _ => ret forest
    | None => modify (set_np_random rs');; ret forest
    end
  else raise (ValueError invalid_contamination).

Definition predict (forest : Forest) (X : list cell) : M (list Z) :=
  xs ← lift (check_array X);
  ret (map (λ x, label_of (decision_function forest x)) xs).

Definition fit_predict (est : IsolationForest) (X : list cell) : M (list Z) :=
  forest ← fit est X;
  predict forest X.

(** ** The program *)

Definition detect_anomalies_isolation_forest (data : loc) (contamination : R)
    : M DataFrame :=
  df ← deref data;
  cols ← lift (getitem_list df ["value"]);
  let values := values cols in
  let isolation_forest := IsolationForest_init contamination (Some 42%Z) in
  labels ← fit_predict isolation_forest values;
  setitem data "anomaly" (Int <$> labels);;
  value ← getitem data "value";
  setitem data "mean" (Rolling.rolling 5 1 Rolling.mean value);;
  value ← getitem data "value";
  setitem data "std_dev" (Rolling.rolling 5 1 Rolling.std value);;
  anomaly ← getitem data "anomaly";
  df ← deref data;
  let anomalies := getitem_mask df (eq_scalar (-1) anomaly) in
  ret anomalies.

Definition save_anomalies_to_csv (anomalies : DataFrame) (dataset_name : string)
    : M unit :=
  let filename :=
    if String.eqb dataset_name "Server CPU Load" then "cpu_anomalies.csv"
    else if String.eqb dataset_name "Ambient System Temperature" then "temperature_anomalies.csv"
    else "nyc_taxi_anomalies.csv" in
  to_csv anomalies ["timestamp"; "value"; "mean"; "std_dev"] filename;;
  print ("Anomalies saved to " +:+ filename).

(** The file the export writes for a dataset: the value of its local
    [filename]. *)
Definition filename_for (dataset_name : string) : string :=
  if String.eqb dataset_name "Server CPU Load" then "cpu_anomalies.csv"
  else if String.eqb dataset_name "Ambient System Temperature" then "temperature_anomalies.csv"
  else "nyc_taxi_anomalies.csv".

End Program.

(** ** What a successful scoring call computes *)

Section Scored.

Context {SK : Sklearn}.

(** The forest the program fits: 100 trees, grown from the source seeded
    with 42. *)
Definition forest_of (contamination : R) (xs : list R) : Forest :=
  (grow 100 contamination xs (seeded 42)).1.

(** The decision scores and the labels of the batch. *)
Definition scores_of (contamination : R) (xs : list R) : list R :=
  map (decision_function (forest_of contamination xs)) xs.

Definition labels_of (contamination : R) (xs : list R) : list Z :=
  map (λ x, label_of (decision_function (forest_of contamination xs) x)) xs.

(** The caller's table after the call: the three columns set, in the order
    the program sets them. *)
Definition scored (df : DataFrame) (col : list cell) (labels : list Z) : DataFrame :=
  with_column
    (with_column
       (with_column df "anomaly" (Int <$> labels))
       "mean" (Rolling.rolling 5 1 Rolling.mean col))
    "std_dev" (Rolling.rolling 5 1 Rolling.std col).

End Scored.

(** ** A stand-in estimator, to run the program on examples *)

(** One stump: a value is scored by how far it lies below 50, so the values
    above 50 are the outliers.  The random source is a counter. *)
#[local] Instance stump : Sklearn := {|
  RandomState := Z;
  seeded := λ s, s;
  Forest := R;
  grow := λ _ _ _ rs, (50, (rs + 1)%Z);
  decision_function := λ cut x, cut - x;
|}.

(** The frame with the given timestamp and value columns. *)
Definition frame_of (ts : list Z) (vs : list R) : DataFrame :=
  {| nrows := length vs;
     columns := <["timestamp" := Int <$> ts]> (<["value" := Float <$> vs]> ∅) |}.

(** A world that holds one table, at reference 0, and has written and
    printed nothing. *)
Definition world_of {SK : Sklearn} (rs : RandomState) (df : DataFrame) : World :=
  {| heap := <[0%nat := df]> ∅; files := ∅; stdout := []; np_random := rs |}.

(** The batch of the specification's scenario. *)
Definition scenario : list R := [1; 2; 3; 4; 5; 100].

Definition scenario_frame : DataFrame :=
  frame_of [10; 20; 30; 40; 50; 60]%Z scenario.

(** Whether a run ended in an exception. *)
Definition raised {A S} (r : outcome A * S) : bool :=
  match r.1 with
  | Returns _ => false
  | Raises _ => true
  end.

(** The batch with no observation. *)
Definition empty_frame : DataFrame := frame_of [] [].

(** The scenario run with the stand-in estimator and contamination 1/6: the
    state before, the labels, the scored table, the returned anomalies and
    the state after. *)
Definition scenario_world : World := world_of (SK := stump) 0%Z scenario_frame.

Definition scenario_labels : list Z := labels_of (SK := stump) (1 / 6) scenario.

Definition scenario_scored : DataFrame :=
  scored scenario_frame (Float <$> scenario) scenario_labels.

Definition scenario_anomalies : DataFrame :=
  getitem_mask scenario_scored (eq_scalar (-1) (Int <$> scenario_labels)).

Definition scenario_world' : World :=
  set_heap (<[0%nat := scenario_scored]> (heap scenario_world)) scenario_world.

(** ** The plot, the session and the button handlers *)

(** One call on an axes object; an axes is modelled by the calls it has
    received since it was last cleared. *)
Inductive artist : Type :=
  | Plot (x y : list cell) (label color : string)
  | Scatter (x y : list cell) (color label : string) (zorder : Z)
  | YLabel (text : string)
  | Title (text : string)
  | XLabel (text : string)
  | Legend
  | TickParams (axis : string) (rotation : Z)
  | Relim
  | AutoscaleView.

(** The dictionary [current_data]: its two entries, ['name'] and ['data']. *)
Record Current : Type := {
  cur_name : string;
  cur_data : loc;
}.

(** [df.empty]: no row, or no column. *)
Definition frame_empty (df : DataFrame) : bool :=
  (nrows df =? 0)%nat || bool_decide (columns df = ∅).

(** [df[name]] on a table held by value. *)
Definition frame_getitem (df : DataFrame) (name : string) : outcome (list cell) :=
  match columns df !! name with
  | Some col => Returns col
  | None => Raises (KeyError name)
  end.

(** [names.index(x)]: the first position of [x], a [ValueError] when there
    is none.  The message is the interpreter's and its wording differs
    between versions; nothing below depends on it. *)
Fixpoint list_index (x : string) (names : list string) : outcome nat :=
  match names with
  | [] => Raises (ValueError ("'" +:+ x +:+ "' is not in list"))
  | y :: rest =>
      if String.eqb y x then Returns 0%nat
      else match list_index x rest with
           | Returns i => Returns (S i)
           | Raises e => Raises e
           end
  end.

(** [datasets[key]] on a dictionary held as its items, in insertion order. *)
Fixpoint dict_getitem (datasets : list (string * loc)) (key : string) : outcome loc :=
  match datasets with
  | [] => Raises (KeyError key)
  | (k, v) :: rest => if String.eqb k key then Returns v else dict_getitem rest key
  end.

(** The contamination of a call that passes none. *)
Definition default_contamination : R := 1 / 100.

Section Gui.

Context {SK : Sklearn}.

(** The state the handlers work on: the program state so far, the axes and
    figures (by reference), and the dictionaries like [current_data]. *)
Record Session : Type := {
  world : World;
  axes : gmap loc (list artist);
  redraws : gmap loc nat;
  dicts : gmap loc Current;
}.

Definition G (A : Type) : Type := Session → outcome A * Session.

Definition gret {A} (a : A) : G A := λ s, (Returns a, s).

Definition graise {A} (e : exception) : G A := λ s, (Raises e, s).

Definition gbind {A B} (m : G A) (k : A → G B) : G B :=
  λ s, match m s with
       | (Returns a, s') => k a s'
       | (Raises e, s') => (Raises e, s')
       end.

Definition glift {A} (o : outcome A) : G A := λ s, (o, s).

Definition gmodify (f : Session → Session) : G unit := λ s, (Returns (), f s).

#[global] Instance G_ret : MRet G := @gret.
#[global] Instance G_bind : MBind G := λ A B k m, gbind m k.

Definition set_world (w : World) (s : Session) : Session :=
  {| world := w; axes := axes s; redraws := redraws s; dicts := dicts s |}.

Definition set_axes (a : gmap loc (list artist)) (s : Session) : Session :=
  {| world := world s; axes := a; redraws := redraws s; dicts := dicts s |}.

Definition set_redraws (r : gmap loc nat) (s : Session) : Session :=
  {| world := world s; axes := axes s; redraws := r; dicts := dicts s |}.

Definition set_dicts (d : gmap loc Current) (s : Session) : Session :=
  {| world := world s; axes := axes s; redraws := redraws s; dicts := d |}.

(** A computation on the program state, run inside the session. *)
Definition in_world {A} (m : M A) : G A :=
  λ s, match m (world s) with (r, w') => (r, set_world w' s) end.

(** [ax.clear()] and every other call on an axes. *)
Definition ax_clear (ax : loc) : G unit :=
  gmodify (λ s, set_axes (<[ax := []]> (axes s)) s).

Definition ax_call (ax : loc) (a : artist) : G unit :=
  gmodify (λ s, set_axes (<[ax := axes s !!! ax ++ [a]]> (axes s)) s).

(** [fig.canvas.draw_idle()]: one more redraw requested. *)
Definition draw_idle (fig : loc) : G unit :=
  gmodify (λ s, set_redraws (<[fig := S (redraws s !!! fig)]> (redraws s)) s).

(** Reading and updating a dictionary like [current_data]. *)
Definition dict_get (d : loc) : G Current :=
  λ s, match dicts s !! d with
       | Some cur => (Returns cur, s)
       | None => (Raises (NameError "unbound reference"), s)
       end.

Definition dict_set (d : loc) (f : Current → Current) : G unit :=
  cur ← dict_get d;
  gmodify (λ s, set_dicts (<[d := f cur]> (dicts s)) s).

Definition visualize_data (fig ax : loc) (data : loc) (anomalies : DataFrame)
    (dataset_name : string) : G unit :=
  ax_clear ax;;
  x ← in_world (getitem data "timestamp");
  y ← in_world (getitem data "value");
  ax_call ax (Plot x y "Data Stream" "blue");;
  (if negb (frame_empty anomalies) then
     x ← glift (frame_getitem anomalies "timestamp");
     y ← glift (frame_getitem anomalies "value");
     ax_call ax (Scatter x y "red" "Anomalies" 5)
   else gret ());;
  (if String.eqb dataset_name "Server CPU Load" then
     ax_call ax (YLabel "CPU Utilization (%)")
   else if String.eqb dataset_name "Ambient System Temperature" then
     ax_call ax (YLabel "Temperature (°C)")
   else ax_call ax (YLabel "Taxi Demand (rides)"));;
  ax_call ax (Title (dataset_name +:+ " Data Stream with IsolationForest Anomalies"));;
  ax_call ax (XLabel "Timestamp");;
  ax_call ax Legend;;
  ax_call ax (TickParams "x" 45);;
  ax_call ax Relim;;
  ax_call ax AutoscaleView;;
  draw_idle fig.

Definition process_full_data (fig ax : loc) (data : loc) (dataset_name : string)
    (contamination : R) : G DataFrame :=
  anomalies ← in_world (detect_anomalies_isolation_forest data contamination);
  visualize_data fig ax data anomalies dataset_name;;
  gret anomalies.

Definition switch_dataset (fig ax current_data : loc)
    (datasets : list (string * loc)) (event : unit) : G unit :=
  let dataset_names := datasets.*1 in
  cur ← dict_get current_data;
  current_index ← glift (list_index (cur_name cur) dataset_names);
  let new_index := ((current_index + 1) `mod` length datasets)%nat in
  new_data ← glift (dict_getitem datasets (dataset_names !!! new_index));
  dict_set current_data (λ cur, {| cur_name := cur_name cur; cur_data := new_data |});;
  dict_set current_data
    (λ cur, {| cur_name := dataset_names !!! new_index; cur_data := cur_data cur |});;
  cur ← dict_get current_data;
  in_world (print ("Switched to " +:+ cur_name cur +:+ " Dataset"));;
  cur ← dict_get current_data;
  process_full_data fig ax (cur_data cur) (cur_name cur) default_contamination;;
  gret ().

Definition save_anomalies (fig ax current_data : loc) (event : unit) : G unit :=
  cur ← dict_get current_data;
  anomalies ← process_full_data fig ax (cur_data cur) (cur_name cur)
                 default_contamination;
  cur ← dict_get current_data;
  in_world (save_anomalies_to_csv anomalies (cur_name cur)).

(** What the plot holds after [visualize_data]: the line of the whole batch,
    the scatter of the anomalies if there is any, and the decorations. *)
Definition ylabel_for (dataset_name : string) : string :=
  if String.eqb dataset_name "Server CPU Load" then "CPU Utilization (%)"
  else if String.eqb dataset_name "Ambient System Temperature" then "Temperature (°C)"
  else "Taxi Demand (rides)".

Definition decorations (dataset_name : string) : list artist :=
  [YLabel (ylabel_for dataset_name);
   Title (dataset_name +:+ " Data Stream with IsolationForest Anomalies");
   XLabel "Timestamp"; Legend; TickParams "x" 45; Relim; AutoscaleView].

(** The session with the calls an axes holds replaced, and the session after
    a redraw of the figure was requested on top of that. *)
Definition with_axes (ax : loc) (arts : list artist) (s : Session) : Session :=
  set_axes (<[ax := arts]> (axes s)) s.

Definition drawn (fig ax : loc) (arts : list artist) (s : Session) : Session :=
  set_redraws (<[fig := S (redraws s !!! fig)]> (redraws s)) (with_axes ax arts s).

(** One click on a button: the handler runs, and the event loop goes on
    whether it returned or raised. *)
Definition click (handler : unit → G unit) (s : Session) : Session :=
  (handler () s).2.

End Gui.

(** The dictionary [datasets] that [main] builds, with the three tables at
    the references 1, 2 and 3. *)
Definition main_datasets : list (string * loc) :=
  [("Server CPU Load", 1%nat); ("Ambient System Temperature", 2%nat);
   ("NYC Taxi Demand", 3%nat)].

(** Tables and sessions to run the handlers on: a table without a [value]
    column, one without a [timestamp] column, one the stand-in estimator
    flags nothing in, and a table with no row. *)
Definition no_value_frame : DataFrame :=
  {| nrows := 2; columns := <["timestamp" := [Int 10; Int 20]]> ∅ |}.

Definition no_timestamp_frame : DataFrame :=
  {| nrows := 6; columns := <["value" := Float <$> scenario]> ∅ |}.

Definition calm_frame : DataFrame := frame_of [10; 20]%Z [1; 2].

Definition no_rows : DataFrame := {| nrows := 0; columns := ∅ |}.

(** A session on one table, at reference 0, with [current_data] at
    reference 0 naming it the CPU dataset. *)
Definition session_of (df : DataFrame) : Session :=
  {| world := world_of (SK := stump) 0%Z df; axes := ∅; redraws := ∅;
     dicts := <[0%nat := {| cur_name := "Server CPU Load"; cur_data := 0%nat |}]> ∅ |}.

(** The session [main] starts the handlers in: three tables, and
    [current_data] on the first. *)
Definition main_session : Session :=
  {| world := {| heap := <[1%nat := scenario_frame]>
                           (<[2%nat := scenario_frame]> (<[3%nat := calm_frame]> ∅));
                 files := ∅; stdout := []; np_random := 0%Z |};
     axes := ∅; redraws := ∅;
     dicts := <[0%nat := {| cur_name := "Server CPU Load"; cur_data := 1%nat |}]> ∅ |}.

(** ** Rolling windows: the sliding buffer is the index range *)

Section RollingFacts.

Implicit Types (w i n : nat) (buf col : list cell) (xs : list R).

Lemma lastn_snoc {A} w (l : list A) (c : A) :
  lastn w (lastn w l ++ [c]) = lastn w (l ++ [c]).
Proof.
  unfold lastn. rewrite !length_app, length_drop. simpl.
  destruct (decide (w = 0)%nat) as [->|Hw].
  { rewrite !drop_ge; [done| |]; rewrite length_app; simpl; [|rewrite length_drop]; lia. }
  destruct (decide (length l ≤ w)%nat) as [Hle|Hgt].
  - replace (length l - w)%nat with 0%nat by lia. simpl.
    by replace (length l - 0)%nat with (length l) by lia.
  - rewrite (drop_app_le l [c] (length l + 1 - w)) by lia.
    rewrite (drop_app_le (drop _ l) [c]) by (rewrite length_drop; lia).
    rewrite drop_drop. f_equal. f_equal. lia.
Qed.

Lemma push_lastn w (pre : list cell) c :
  Rolling.push w (lastn w pre) c = lastn w (pre ++ [c]).
Proof. apply (lastn_snoc w pre c). Qed.

(** Position [i] of the output is the aggregate of the last [w] cells of
    the first [i + 1] cells. *)
Lemma roll_lookup w mp agg (pre : list cell) col i c :
  col !! i = Some c →
  Rolling.roll w mp agg (lastn w pre) col !! i
  = Some (Rolling.emit mp agg (lastn w (pre ++ take (i + 1) col))).
Proof.
  revert pre i. induction col as [|d col IH]; intros pre i Hi; [done|].
  simpl. rewrite push_lastn. destruct i as [|i]; simpl.
  - by rewrite take_0.
  - rewrite (IH (pre ++ [d]) i Hi). by rewrite <- app_assoc.
Qed.

Lemma rolling_lookup w mp agg col i c :
  col !! i = Some c →
  Rolling.rolling w mp agg col !! i
  = Some (Rolling.emit mp agg (lastn w (take (i + 1) col))).
Proof. intros Hi. apply (roll_lookup w mp agg [] col i c Hi). Qed.

Lemma roll_length w mp agg buf col :
  length (Rolling.roll w mp agg buf col) = length col.
Proof. revert buf. induction col as [|c col IH]; intros buf; simpl; [done|]. by rewrite IH. Qed.

Lemma rolling_length w mp agg col :
  length (Rolling.rolling w mp agg col) = length col.
Proof. apply roll_length. Qed.

(** A column without [NaN]: its numbers, cell by cell. *)
Lemma numerics_omap col xs : mapM numeric col = Some xs → omap numeric col = xs.
Proof.
  rewrite mapM_Some. induction 1 as [|c x col xs Hc _ IH]; [done|].
  cbn. rewrite Hc. cbn. by f_equal.
Qed.

Lemma numerics_length col xs : mapM numeric col = Some xs → length col = length xs.
Proof. rewrite mapM_Some. apply Forall2_length. Qed.

Lemma numerics_lastn_take w n col xs :
  mapM numeric col = Some xs →
  omap numeric (lastn w (take n col)) = lastn w (take n xs).
Proof.
  intros H. apply numerics_omap. apply mapM_Some.
  apply mapM_Some in H. unfold lastn.
  rewrite (Forall2_length _ _ _ (Forall2_take _ _ _ n H)).
  by apply Forall2_drop, Forall2_take.
Qed.

Lemma omap_lookup_seq xs a n :
  omap (λ j, xs !! j) (seq a n) = take n (drop a xs).
Proof.
  revert a. induction n as [|n IH]; intros a; simpl; [by rewrite take_0|].
  rewrite IH. destruct (xs !! a) as [x|] eqn:Hx.
  - by rewrite (drop_S xs x a Hx).
  - apply lookup_ge_None in Hx.
    rewrite (drop_ge xs a), (drop_ge xs (S a)) by lia. by destruct n.
Qed.

Lemma window_start_nat w i : window_start w i = (i + 1 - w)%nat.
Proof. unfold window_start. lia. Qed.

Lemma window_values_lastn w i xs :
  (i < length xs)%nat → window_values w i xs = lastn w (take (i + 1) xs).
Proof.
  intros Hi. unfold window_values, lastn.
  rewrite omap_lookup_seq, window_start_nat, length_take.
  rewrite take_drop_commute.
  replace (i + 1 - w + (i + 1 - (i + 1 - w)))%nat with (i + 1)%nat by lia.
  f_equal. lia.
Qed.

Lemma window_values_length w i xs :
  (i < length xs)%nat → length (window_values w i xs) = (w `min` (i + 1))%nat.
Proof.
  intros Hi. rewrite window_values_lastn by done. unfold lastn.
  rewrite length_drop, length_take. lia.
Qed.

Lemma sample_std_ssqdm xs :
  sample_std xs = sqrt (Rolling.ssqdm xs / (INR (length xs) - 1)).
Proof.
  unfold sample_std, Rolling.ssqdm, sample_mean, Rolling.average.
  do 3 f_equal. apply map_ext. intros x. ring.
Qed.

End RollingFacts.

(** ** Running the monad *)

Section Run.

Context {SK : Sklearn}.

Implicit Types (w : World) (df : DataFrame) (col : list cell) (data : loc).

Lemma run_bind {A B} (m : M A) (k : A → M B) w :
  (m ≫= k) w = match m w with
                | (Returns a, w') => k a w'
                | (Raises e, w') => (Raises e, w')
                end.
Proof. reflexivity. Qed.

Lemma bind_returns {A B} (m : M A) (k : A → M B) w a w' :
  m w = (Returns a, w') → (m ≫= k) w = k a w'.
Proof. intros H. by rewrite run_bind, H. Qed.

Lemma bind_raises {A B} (m : M A) (k : A → M B) w e w' :
  m w = (Raises e, w') → (m ≫= k) w = (Raises e, w').
Proof. intros H. by rewrite run_bind, H. Qed.

Lemma set_heap_set_heap h h' w : set_heap h (set_heap h' w) = set_heap h w.
Proof. reflexivity. Qed.

Lemma heap_set_heap h w : heap (set_heap h w) = h.
Proof. reflexivity. Qed.

Lemma set_heap_id w : set_heap (heap w) w = w.
Proof. by destruct w. Qed.

Lemma deref_returns data w df :
  heap w !! data = Some df → deref data w = (Returns df, w).
Proof. intros H. unfold deref. rewrite run_bind. simpl. by rewrite H. Qed.

Lemma deref_raises data w :
  heap w !! data = None → deref data w = (Raises (NameError "unbound reference"), w).
Proof. intros H. unfold deref. rewrite run_bind. simpl. by rewrite H. Qed.

Lemma getitem_returns data name w df col :
  heap w !! data = Some df → columns df !! name = Some col →
  getitem data name w = (Returns col, w).
Proof.
  intros Hd Hc. unfold getitem.
  rewrite (bind_returns _ _ _ _ _ (deref_returns _ _ _ Hd)). by rewrite Hc.
Qed.

Lemma getitem_raises data name w df :
  heap w !! data = Some df → columns df !! name = None →
  getitem data name w = (Raises (KeyError name), w).
Proof.
  intros Hd Hc. unfold getitem.
  rewrite (bind_returns _ _ _ _ _ (deref_returns _ _ _ Hd)). by rewrite Hc.
Qed.

Lemma getitem_unbound data name w :
  heap w !! data = None →
  getitem data name w = (Raises (NameError "unbound reference"), w).
Proof.
  intros Hd. unfold getitem.
  by rewrite (bind_raises _ _ _ _ _ (deref_raises _ _ Hd)).
Qed.

(** The list indexer: every label a column, or a [KeyError]. *)
Lemma getitem_list_returns df (names : list string) (cols : list (list cell)) :
  Forall2 (λ name c, columns df !! name = Some c) names cols →
  getitem_list df names = Returns cols.
Proof.
  intros H. unfold getitem_list.
  assert (Hf : filter (λ name, columns df !! name = None) names = []).
  { induction H as [|name c names cols Hc _ IH]; [done|].
    rewrite filter_cons, decide_False by (by rewrite Hc). exact IH. }
  rewrite Hf. clear Hf. f_equal.
  induction H as [|name c names cols Hc _ IH]; [done|].
  cbn [omap list_omap]. rewrite Hc. by f_equal.
Qed.

Lemma getitem_list_raises df (names : list string) (name : string) :
  name ∈ names → columns df !! name = None →
  ∃ msg, getitem_list df names = Raises (KeyError msg).
Proof.
  intros Hin Hnone. unfold getitem_list.
  destruct (filter (λ name, columns df !! name = None) names) as [|m ms] eqn:Hf.
  - assert (Hm : name ∈ filter (λ name, columns df !! name = None) names)
      by (by apply list_elem_of_filter).
    rewrite Hf in Hm. by apply elem_of_nil in Hm.
  - unfold not_in_index. eauto.
Qed.

Lemma getitem_list_inv df (names : list string) (cols : list (list cell)) :
  getitem_list df names = Returns cols →
  Forall2 (λ name c, columns df !! name = Some c) names cols.
Proof.
  unfold getitem_list.
  destruct (filter (λ name, columns df !! name = None) names) as [|m ms] eqn:Hf;
    [|done].
  intros [= <-].
  induction names as [|name names IH]; [constructor|].
  rewrite filter_cons in Hf. destruct (decide (columns df !! name = None)) as [|Hc];
    [done|].
  destruct (columns df !! name) as [c|] eqn:Hn; [|done].
  cbn. rewrite Hn. constructor; [done|]. by apply IH.
Qed.

Lemma getitem_list_raises_inv df (names : list string) e :
  getitem_list df names = Raises e →
  ∃ msg, e = KeyError msg.
Proof.
  unfold getitem_list.
  destruct (filter (λ name, columns df !! name = None) names) as [|m ms];
    [done|].
  unfold not_in_index. intros [= <-]. eauto.
Qed.

Lemma getitem_list_one df (name : string) :
  getitem_list df [name]
  = match columns df !! name with
    | Some col => Returns [col]
    | None => Raises (not_in_index [name] [name])
    end.
Proof.
  destruct (columns df !! name) as [col|] eqn:Hc.
  - apply getitem_list_returns. by repeat constructor.
  - unfold getitem_list. by rewrite filter_cons, decide_True.
Qed.

Lemma getitem_list_four df (ts vs ms ss : list cell) :
  columns df !! "timestamp" = Some ts → columns df !! "value" = Some vs →
  columns df !! "mean" = Some ms → columns df !! "std_dev" = Some ss →
  getitem_list df ["timestamp"; "value"; "mean"; "std_dev"]
  = Returns [ts; vs; ms; ss].
Proof. intros. apply getitem_list_returns. by repeat constructor. Qed.

Lemma setitem_returns data name col w df :
  heap w !! data = Some df → length col = nrows df →
  setitem data name col w
  = (Returns (), set_heap (<[data := with_column df name col]> (heap w)) w).
Proof.
  intros Hd Hl. unfold setitem.
  rewrite (bind_returns _ _ _ _ _ (deref_returns _ _ _ Hd)).
  by rewrite (proj2 (Nat.eqb_eq _ _) Hl).
Qed.

Lemma setitem_raises data name col w df :
  heap w !! data = Some df → length col ≠ nrows df →
  setitem data name col w
  = (Raises (ValueError "Length of values does not match length of index"), w).
Proof.
  intros Hd Hl. unfold setitem.
  rewrite (bind_returns _ _ _ _ _ (deref_returns _ _ _ Hd)).
  by rewrite (proj2 (Nat.eqb_neq _ _) Hl).
Qed.

(** ** The estimator *)

Lemma check_array_returns col xs :
  col ≠ [] → mapM numeric col = Some xs → check_array col = Returns xs.
Proof. intros Hne Hx. unfold check_array. destruct col; [done|]. by rewrite Hx. Qed.

Lemma check_array_inv col xs :
  check_array col = Returns xs → col ≠ [] ∧ mapM numeric col = Some xs.
Proof.
  unfold check_array. destruct col as [|c col]; [done|].
  destruct (mapM numeric (c :: col)) eqn:E; [|done]. intros [= <-]. by split.
Qed.

Lemma check_array_raises_ValueError col e :
  check_array col = Raises e → ∃ msg, e = ValueError msg.
Proof.
  unfold check_array. destruct col as [|c col]; [intros [= <-]; eauto|].
  destruct (mapM numeric (c :: col)); [done|]. intros [= <-]; eauto.
Qed.

Lemma valid_contamination_true c :
  valid_contamination c = true ↔ 0 < c ∧ c <= 1 / 2.
Proof.
  unfold valid_contamination.
  destruct (Rlt_dec 0 c), (Rle_dec c (1 / 2)); split; intros H; try done; lra.
Qed.

Lemma fit_predict_seeded c (seed : Z) col w :
  fit_predict (IsolationForest_init c (Some seed)) col w
  = if valid_contamination c then
      match check_array col with
      | Returns xs =>
          (Returns (map (λ x, label_of (decision_function
                      (grow 100 c xs (seeded seed)).1 x)) xs), w)
      | Raises e => (Raises e, w)
      end
    else (Raises (ValueError invalid_contamination), w).
Proof.
  unfold fit_predict, fit, predict. rewrite run_bind. simpl.
  destruct (valid_contamination c); [|done].
  rewrite run_bind. unfold lift at 1.
  destruct (check_array col) as [xs|e] eqn:E; [|done].
  rewrite run_bind. simpl.
  destruct (grow 100 c xs (seeded seed)) as [forest rs'] eqn:G. simpl.
  by rewrite run_bind.
Qed.

End Run.

(** ** The scoring function, case by case *)

Section Detect.

Context {SK : Sklearn}.

Implicit Types (w : World) (df : DataFrame) (col : list cell) (data : loc).

Lemma labels_of_length c xs : length (labels_of c xs) = length xs.
Proof. apply length_map. Qed.

Lemma scored_nrows df col labels : nrows (scored df col labels) = nrows df.
Proof. reflexivity. Qed.

Lemma scored_anomaly df col labels :
  columns (scored df col labels) !! "anomaly" = Some (Int <$> labels).
Proof.
  unfold scored, with_column. simpl.
  rewrite !lookup_insert_ne by done. apply lookup_insert_eq.
Qed.

Lemma scored_mean df col labels :
  columns (scored df col labels) !! "mean"
  = Some (Rolling.rolling 5 1 Rolling.mean col).
Proof.
  unfold scored, with_column. simpl.
  rewrite lookup_insert_ne by done. apply lookup_insert_eq.
Qed.

Lemma scored_std_dev df col labels :
  columns (scored df col labels) !! "std_dev"
  = Some (Rolling.rolling 5 1 Rolling.std col).
Proof. unfold scored, with_column. simpl. apply lookup_insert_eq. Qed.

Lemma scored_other df col labels name :
  name ≠ "anomaly" → name ≠ "mean" → name ≠ "std_dev" →
  columns (scored df col labels) !! name = columns df !! name.
Proof.
  intros H1 H2 H3. unfold scored, with_column. simpl.
  by rewrite !lookup_insert_ne.
Qed.

(** The whole function as one case analysis: which statement can raise,
    and the state each exit leaves. *)
Lemma detect_run data c w :
  detect_anomalies_isolation_forest data c w
  = match heap w !! data with
    | None => (Raises (NameError "unbound reference"), w)
    | Some df =>
        match columns df !! "value" with
        | None => (Raises (not_in_index ["value"] ["value"]), w)
        | Some col =>
            if valid_contamination c then
              match check_array col with
              | Raises e => (Raises e, w)
              | Returns xs =>
                  if (length col =? nrows df)%nat then
                    (Returns (getitem_mask (scored df col (labels_of c xs))
                                (eq_scalar (-1) (Int <$> labels_of c xs))),
                     set_heap (<[data := scored df col (labels_of c xs)]> (heap w)) w)
                  else (Raises (ValueError "Length of values does not match length of index"), w)
              end
            else (Raises (ValueError invalid_contamination), w)
        end
    end.
Proof.
  unfold detect_anomalies_isolation_forest.
  destruct (heap w !! data) as [df|] eqn:Hd.
  2: { by rewrite (bind_raises _ _ _ _ _ (deref_raises _ _ Hd)). }
  rewrite (bind_returns _ _ _ _ _ (deref_returns _ _ _ Hd)).
  rewrite run_bind. unfold lift at 1. rewrite getitem_list_one.
  destruct (columns df !! "value") as [col|] eqn:Hv; [|done].
  cbn [values].
  rewrite run_bind, fit_predict_seeded.
  destruct (valid_contamination c); [|done].
  destruct (check_array col) as [xs|e] eqn:Hx; [|done].
  apply check_array_inv in Hx as [Hne Hx].
  fold (forest_of c xs). fold (labels_of c xs).
  pose proof (numerics_length _ _ Hx) as Hlen.
  destruct (length col =? nrows df)%nat eqn:Hn.
  2: { apply Nat.eqb_neq in Hn.
       assert (Hl : length (Int <$> labels_of c xs) ≠ nrows df).
       { rewrite length_fmap, labels_of_length. lia. }
       by rewrite (bind_raises _ _ _ _ _ (setitem_raises data "anomaly" _ w df Hd Hl)). }
  apply Nat.eqb_eq in Hn.
  set (labels := labels_of c xs).
  set (df1 := with_column df "anomaly" (Int <$> labels)).
  set (df2 := with_column df1 "mean" (Rolling.rolling 5 1 Rolling.mean col)).
  set (df3 := with_column df2 "std_dev" (Rolling.rolling 5 1 Rolling.std col)).
  assert (Hl1 : length (Int <$> labels) = nrows df).
  { unfold labels. rewrite length_fmap, labels_of_length. lia. }
  rewrite (bind_returns _ _ _ _ _ (setitem_returns data "anomaly" _ w df Hd Hl1)).
  fold df1. set (w1 := set_heap (<[data:=df1]> (heap w)) w).
  assert (Hd1 : heap w1 !! data = Some df1) by apply lookup_insert_eq.
  assert (Hv1 : columns df1 !! "value" = Some col).
  { unfold df1, with_column. simpl. by rewrite lookup_insert_ne. }
  rewrite (bind_returns _ _ _ _ _ (getitem_returns _ _ _ _ _ Hd1 Hv1)).
  assert (Hl2 : length (Rolling.rolling 5 1 Rolling.mean col) = nrows df1).
  { rewrite rolling_length. done. }
  rewrite (bind_returns _ _ _ _ _ (setitem_returns data "mean" _ w1 df1 Hd1 Hl2)).
  fold df2. set (w2 := set_heap (<[data:=df2]> (heap w1)) w1).
  assert (Hd2 : heap w2 !! data = Some df2) by apply lookup_insert_eq.
  assert (Hv2 : columns df2 !! "value" = Some col).
  { unfold df2, with_column. simpl. by rewrite lookup_insert_ne. }
  rewrite (bind_returns _ _ _ _ _ (getitem_returns _ _ _ _ _ Hd2 Hv2)).
  assert (Hl3 : length (Rolling.rolling 5 1 Rolling.std col) = nrows df2).
  { rewrite rolling_length. done. }
  rewrite (bind_returns _ _ _ _ _ (setitem_returns data "std_dev" _ w2 df2 Hd2 Hl3)).
  fold df3. set (w3 := set_heap (<[data:=df3]> (heap w2)) w2).
  assert (Hd3 : heap w3 !! data = Some df3) by apply lookup_insert_eq.
  assert (Ha3 : columns df3 !! "anomaly" = Some (Int <$> labels))
    by apply scored_anomaly.
  rewrite (bind_returns _ _ _ _ _ (getitem_returns _ _ _ _ _ Hd3 Ha3)).
  rewrite (bind_returns _ _ _ _ _ (deref_returns _ _ _ Hd3)).
  unfold w3, w2, w1. simpl. unfold set_heap. simpl.
  by rewrite !insert_insert_eq.
Qed.

(** A call that returns: what held before, and the state it leaves. *)
Lemma detect_returns_inv data c w df anomalies w' :
  heap w !! data = Some df →
  detect_anomalies_isolation_forest data c w = (Returns anomalies, w') →
  ∃ col xs,
    columns df !! "value" = Some col ∧ col ≠ [] ∧ mapM numeric col = Some xs
    ∧ valid_contamination c = true ∧ length col = nrows df
    ∧ anomalies = getitem_mask (scored df col (labels_of c xs))
                    (eq_scalar (-1) (Int <$> labels_of c xs))
    ∧ w' = set_heap (<[data := scored df col (labels_of c xs)]> (heap w)) w.
Proof.
  intros Hd. rewrite detect_run, Hd.
  destruct (columns df !! "value") as [col|]; [|done].
  destruct (valid_contamination c); [|done].
  destruct (check_array col) as [xs|e] eqn:Hx; [|done].
  destruct (length col =? nrows df)%nat eqn:Hn; [|done].
  intros [= <- <-]. apply check_array_inv in Hx as [Hne Hx].
  apply Nat.eqb_eq in Hn. by exists col, xs.
Qed.

(** A call that returns, from its preconditions. *)
Lemma detect_returns data c w df col xs :
  heap w !! data = Some df → columns df !! "value" = Some col →
  col ≠ [] → mapM numeric col = Some xs → length col = nrows df →
  0 < c ∧ c <= 1 / 2 →
  detect_anomalies_isolation_forest data c w
  = (Returns (getitem_mask (scored df col (labels_of c xs))
                (eq_scalar (-1) (Int <$> labels_of c xs))),
     set_heap (<[data := scored df col (labels_of c xs)]> (heap w)) w).
Proof.
  intros Hd Hv Hne Hx Hn Hc. rewrite detect_run, Hd, Hv.
  rewrite (proj2 (valid_contamination_true c) Hc).
  rewrite (check_array_returns col xs Hne Hx).
  by rewrite (proj2 (Nat.eqb_eq _ _) Hn).
Qed.

(** A call that raises leaves the state as it found it: every statement
    that can raise comes before the first assignment. *)
Lemma detect_raises_unchanged data c w e w' :
  detect_anomalies_isolation_forest data c w = (Raises e, w') → w' = w.
Proof.
  rewrite detect_run.
  destruct (heap w !! data) as [df|]; [|by intros [= _ <-]].
  destruct (columns df !! "value") as [col|]; [|by intros [= _ <-]].
  destruct (valid_contamination c); [|by intros [= _ <-]].
  destruct (check_array col) as [xs|e0]; [|by intros [= _ <-]].
  destruct (length col =? nrows df)%nat; [done|by intros [= _ <-]].
Qed.

End Detect.

(** ** Rolling statistics: the claims *)

Section RollingClaims.

Implicit Types (w i n : nat) (col : list cell) (xs : list R).

(** Over a column of numbers, position [i] of a rolling aggregate with
    [min_periods = 1] is the aggregate of the values at the indices
    [window_start w i .. i]. *)
Lemma rolling_window w agg col xs i :
  (1 ≤ w)%nat → mapM numeric col = Some xs → (i < length xs)%nat →
  Rolling.rolling w 1 agg col !! i = Some (agg (window_values w i xs)).
Proof.
  intros Hw Hx Hi.
  destruct (lookup_lt_is_Some_2 col i) as [c Hc].
  { rewrite (numerics_length _ _ Hx). lia. }
  rewrite (rolling_lookup w 1 agg col i c Hc). unfold Rolling.emit.
  rewrite (numerics_lastn_take w (i + 1) col xs Hx).
  rewrite <- (window_values_lastn w i xs Hi).
  pose proof (window_values_length w i xs Hi) as Hl.
  destruct (1 <=? length (window_values w i xs))%nat eqn:E; [done|].
  apply Nat.leb_gt in E. lia.
Qed.

Lemma mean_sample_mean xs :
  (1 ≤ length xs)%nat → Rolling.mean xs = Float (sample_mean xs).
Proof. destruct xs; simpl; [lia|done]. Qed.

Lemma std_sample_std xs :
  (1 ≤ length xs)%nat →
  Rolling.std xs
  = if decide (length xs = 1%nat) then NaN else Float (sample_std xs).
Proof.
  intros Hl. unfold Rolling.std. rewrite sample_std_ssqdm.
  destruct (decide (length xs = 1%nat)) as [->|Hne]; [done|].
  destruct (length xs <=? 1)%nat eqn:E; [|done].
  apply Nat.leb_le in E. lia.
Qed.

Lemma rolling_causal w mp agg col col' i :
  (i < length col)%nat → take (i + 1) col' = take (i + 1) col →
  Rolling.rolling w mp agg col' !! i = Rolling.rolling w mp agg col !! i.
Proof.
  intros Hi Ht.
  destruct (lookup_lt_is_Some_2 col i Hi) as [c Hc].
  assert (Hc' : col' !! i = Some c).
  { rewrite <- (lookup_take_lt col' (i + 1) i), Ht, lookup_take_lt by lia. done. }
  by rewrite (rolling_lookup _ _ _ _ _ _ Hc), (rolling_lookup _ _ _ _ _ _ Hc'), Ht.
Qed.

(** Windows over a constant batch. *)
Lemma total_replicate n (k : R) : Rolling.total (replicate n k) = INR n * k.
Proof.
  induction n as [|n IH]; [simpl; ring|].
  rewrite S_INR. cbn [replicate Rolling.total]. rewrite IH. ring.
Qed.

Lemma average_replicate n (k : R) :
  (1 ≤ n)%nat → Rolling.average (replicate n k) = k.
Proof.
  intros Hn. unfold Rolling.average. rewrite total_replicate, length_replicate.
  field. apply not_0_INR. lia.
Qed.

Lemma mean_replicate n (k : R) :
  (1 ≤ n)%nat → Rolling.mean (replicate n k) = Float k.
Proof.
  intros Hn. rewrite <- (average_replicate n k Hn) at 2.
  destruct n; [lia|done].
Qed.

Lemma std_replicate n (k : R) :
  (2 ≤ n)%nat → Rolling.std (replicate n k) = Float 0.
Proof.
  intros Hn. unfold Rolling.std, Rolling.ssqdm.
  rewrite length_replicate, average_replicate by lia.
  destruct (n <=? 1)%nat eqn:E; [apply Nat.leb_le in E; lia|].
  change (map ?f (replicate n k)) with (f <$> replicate n k).
  rewrite fmap_replicate, total_replicate.
  replace (INR n * ((k - k) * (k - k)) / (INR n - 1)) with 0.
  - by rewrite sqrt_0.
  - unfold Rdiv. ring.
Qed.

Lemma window_values_replicate w i n (k : R) :
  (i < n)%nat →
  window_values w i (replicate n k) = replicate (w `min` (i + 1)) k.
Proof.
  intros Hi. rewrite window_values_lastn by (rewrite length_replicate; lia).
  unfold lastn. rewrite take_replicate, drop_replicate, length_replicate.
  f_equal. lia.
Qed.

End RollingClaims.

(** ** The scenario batch [1, 2, 3, 4, 5, 100] *)

Section Scenario.

Lemma scenario_numerics : mapM numeric (Float <$> scenario) = Some scenario.
Proof. reflexivity. Qed.


Lemma scenario_window_5 : window_values 5 5 scenario = [2; 3; 4; 5; 100].
Proof. reflexivity. Qed.


Lemma scenario_mean_5 :
  Rolling.rolling 5 1 Rolling.mean (Float <$> scenario) !! 5%nat
  = Some (Float (114 / 5)).
Proof.
  rewrite (rolling_window 5 _ _ scenario 5); [|lia|apply scenario_numerics|simpl; lia].
  rewrite scenario_window_5. unfold Rolling.mean, Rolling.average. simpl.
  do 2 f_equal. lra.
Qed.


Lemma scenario_std_5 :
  Rolling.rolling 5 1 Rolling.std (Float <$> scenario) !! 5%nat
  = Some (Float (sqrt (18637 / 10))).
Proof.
  rewrite (rolling_window 5 _ _ scenario 5); [|lia|apply scenario_numerics|simpl; lia].
  rewrite scenario_window_5. unfold Rolling.std, Rolling.ssqdm, Rolling.average. simpl.
  do 3 f_equal. lra.
Qed.


End Scenario.

(** ** Masks, rows and the export *)

Section ExportFacts.

Context {SK : Sklearn}.

Implicit Types (mask : list bool) (cols : list (list cell)) (df : DataFrame).

Lemma row_at_S cols i : row_at cols (S i) = row_at (tail <$> cols) i.
Proof.
  unfold row_at. induction cols as [|c cols IH]; [done|].
  cbn. rewrite IH. by destruct c.
Qed.

Lemma rows_S cols n :
  row_at cols <$> seq 0 (S n)
  = row_at cols 0 :: (row_at (tail <$> cols) <$> seq 0 n).
Proof.
  cbn [seq fmap list_fmap]. f_equal.
  rewrite <- fmap_S_seq, <- list_fmap_compose.
  apply list_fmap_ext. intros _ i _. apply row_at_S.
Qed.

Lemma select_false_tail mask cols :
  select (false :: mask) <$> cols = select mask <$> (tail <$> cols).
Proof.
  rewrite <- list_fmap_compose. apply list_fmap_ext. intros _ c _.
  destruct c; [by destruct mask|done].
Qed.

Lemma select_true_tail mask cols :
  tail <$> (select (true :: mask) <$> cols) = select mask <$> (tail <$> cols).
Proof.
  rewrite <- !list_fmap_compose. apply list_fmap_ext. intros _ c _.
  destruct c; [by destruct mask|done].
Qed.

Lemma select_true_head mask cols :
  row_at (select (true :: mask) <$> cols) 0 = row_at cols 0.
Proof.
  unfold row_at. induction cols as [|c cols IH]; [done|].
  cbn. rewrite <- IH. by destruct c.
Qed.

(** The rows of the masked columns are the masked rows: selection keeps the
    rows whole and in order. *)
Lemma rows_select mask cols :
  row_at (select mask <$> cols) <$> seq 0 (length (filter (λ b, b = true) mask))
  = select mask (row_at cols <$> seq 0 (length mask)).
Proof.
  revert cols. induction mask as [|b mask IH]; intros cols; [done|].
  cbn [length]. rewrite (rows_S cols). destruct b.
  - rewrite filter_cons_True by done. cbn [length].
    rewrite rows_S, select_true_head, select_true_tail, IH. done.
  - rewrite filter_cons_False by done.
    rewrite select_false_tail, IH. done.
Qed.

Lemma getitem_mask_lookup df mask name :
  columns (getitem_mask df mask) !! name = select mask <$> (columns df !! name).
Proof. unfold getitem_mask. simpl. apply lookup_fmap. Qed.

Lemma eq_scalar_labels (labels : list Z) :
  eq_scalar (-1) (Int <$> labels) = map (λ z, bool_decide (z = (-1)%Z)) labels.
Proof.
  unfold eq_scalar. change (map ?f (Int <$> labels)) with (f <$> (Int <$> labels)).
  rewrite <- list_fmap_compose. apply list_fmap_ext. intros _ z _. simpl.
  case_bool_decide as Hz; [by apply Z.eqb_eq|by apply Z.eqb_neq].
Qed.

Lemma eq_scalar_length k (col : list cell) : length (eq_scalar k col) = length col.
Proof. apply length_map. Qed.

(** The export, case by case. *)
Lemma save_anomalies_to_csv_run (anomalies : DataFrame) (dataset_name : string) (w : World) :
  save_anomalies_to_csv anomalies dataset_name w
  = match getitem_list anomalies ["timestamp"; "value"; "mean"; "std_dev"] with
    | Returns cols =>
        (Returns (),
         set_stdout (stdout w ++ ["Anomalies saved to " +:+ filename_for dataset_name])
           (set_files
              (<[filename_for dataset_name :=
                   {| header := ["timestamp"; "value"; "mean"; "std_dev"];
                      rows := row_at cols <$> seq 0 (nrows anomalies) |}]> (files w)) w))
    | Raises e => (Raises e, w)
    end.
Proof.
  unfold save_anomalies_to_csv, to_csv. fold (filename_for dataset_name).
  rewrite !run_bind. unfold lift at 1.
  by destruct (getitem_list anomalies _).
Qed.

End ExportFacts.

(** ** The claims *)

Section Claims.

Context {SK : Sklearn}.

Implicit Types (w i n : nat) (col : list cell) (xs : list R).

(** C1. For every batch of numbers and every window size [w] of at least 1,
    the rolling mean and the rolling standard deviation at index [i] are the
    mean and the sample standard deviation (denominator [n - 1]; [NaN] for a
    window of one value) of the values at the indices
    [max(0, i - w + 1) .. i].  The window holds [min(w, i + 1)] values: for
    [i < w - 1] it is the whole prefix up to [i].  It is causal: a column
    that agrees on the first [i + 1] cells gives the same result at [i].
    The program computes its [mean] and [std_dev] columns with [w = 5]. *)
Theorem rolling_statistics_trailing_window w col xs i :
  (1 ≤ w)%nat → mapM numeric col = Some xs → (i < length xs)%nat →
  Rolling.rolling w 1 Rolling.mean col !! i
  = Some (Float (sample_mean (window_values w i xs)))
  ∧ Rolling.rolling w 1 Rolling.std col !! i
    = Some (if decide (length (window_values w i xs) = 1%nat) then NaN
            else Float (sample_std (window_values w i xs)))
  ∧ length (window_values w i xs) = (w `min` (i + 1))%nat
  ∧ ((i < w - 1)%nat → window_values w i xs = take (i + 1) xs)
  ∧ (∀ col' agg, take (i + 1) col' = take (i + 1) col →
       Rolling.rolling w 1 agg col' !! i = Rolling.rolling w 1 agg col !! i)
  ∧ (∀ data c world df anomalies world',
       heap world !! data = Some df → columns df !! "value" = Some col →
       detect_anomalies_isolation_forest data c world = (Returns anomalies, world') →
       ∃ df', heap world' !! data = Some df'
         ∧ columns df' !! "mean" = Some (Rolling.rolling 5 1 Rolling.mean col)
         ∧ columns df' !! "std_dev" = Some (Rolling.rolling 5 1 Rolling.std col)).
Proof.
  intros Hw Hx Hi.
  pose proof (window_values_length w i xs Hi) as Hl.
  repeat split.
  - rewrite (rolling_window w _ col xs i Hw Hx Hi).
    rewrite mean_sample_mean; [done|lia].
  - rewrite (rolling_window w _ col xs i Hw Hx Hi).
    rewrite std_sample_std; [done|lia].
  - done.
  - intros Hp. rewrite window_values_lastn by done. unfold lastn.
    rewrite length_take. replace (_ - w)%nat with 0%nat by lia. done.
  - intros col' agg Ht. apply rolling_causal; [|done].
    rewrite (numerics_length _ _ Hx). done.
  - intros data c world df anomalies world' Hd Hv Hrun.
    destruct (detect_returns_inv _ _ _ _ _ _ Hd Hrun)
      as (col0 & xs0 & Hv0 & _ & _ & _ & _ & _ & ->).
    rewrite Hv in Hv0. injection Hv0 as <-.
    eexists. split; [apply lookup_insert_eq|].
    split; [apply scored_mean|apply scored_std_dev].
Qed.

(** C2. The rolling standard deviation at an index whose window holds
    exactly one value is [NaN], not 0: that is index 0 of every batch (and
    no other index unless [w = 1]).  Over a batch whose values are all the
    constant [k], the rolling mean is [k] at every index and the rolling
    standard deviation is 0 at every index whose window holds at least two
    values. *)
Theorem rolling_std_single_window_and_constant_batch w col xs i :
  (1 ≤ w)%nat → mapM numeric col = Some xs → (i < length xs)%nat →
  (length (window_values w i xs) = 1%nat →
     Rolling.rolling w 1 Rolling.std col !! i = Some NaN
     ∧ Rolling.rolling w 1 Rolling.std col !! i ≠ Some (Float 0))
  ∧ (length (window_values w i xs) = 1%nat ↔ i = 0%nat ∨ w = 1%nat)
  ∧ Rolling.rolling w 1 Rolling.std col !! 0%nat = Some NaN
  ∧ (∀ k, xs = replicate (length xs) k →
       Rolling.rolling w 1 Rolling.mean col !! i = Some (Float k)
       ∧ ((2 ≤ length (window_values w i xs))%nat →
            Rolling.rolling w 1 Rolling.std col !! i = Some (Float 0))).
Proof.
  intros Hw Hx Hi.
  pose proof (window_values_length w i xs Hi) as Hl.
  assert (H0 : (0 < length xs)%nat) by lia.
  pose proof (window_values_length w 0 xs H0) as Hl0.
  repeat split.
  - rewrite (rolling_window w _ col xs i Hw Hx Hi).
    rewrite std_sample_std by lia. by destruct (decide _).
  - rewrite (rolling_window w _ col xs i Hw Hx Hi).
    rewrite std_sample_std by lia. by destruct (decide _).
  - lia.
  - lia.
  - rewrite (rolling_window w _ col xs 0 Hw Hx H0).
    rewrite std_sample_std by lia. destruct (decide _); [done|lia].
  - rewrite (rolling_window w _ col xs i Hw Hx Hi). rewrite H.
    rewrite window_values_replicate by done.
    rewrite mean_replicate; [done|lia].
  - intros H2. rewrite (rolling_window w _ col xs i Hw Hx Hi).
    rewrite H in H2 |- *. rewrite window_values_replicate in H2 |- * by done.
    rewrite length_replicate in H2. by rewrite std_replicate.
Qed.

Lemma world_of_heap (rs : RandomState) df : heap (world_of rs df) !! 0%nat = Some df.
Proof. apply lookup_insert_eq. Qed.

Lemma frame_of_value (ts : list Z) (vs : list R) : columns (frame_of ts vs) !! "value" = Some (Float <$> vs).
Proof. unfold frame_of. simpl. rewrite lookup_insert_ne by done. apply lookup_insert_eq. Qed.

Lemma frame_of_timestamp (ts : list Z) (vs : list R) :
  columns (frame_of ts vs) !! "timestamp" = Some (Int <$> ts).
Proof. apply lookup_insert_eq. Qed.

Lemma frame_of_numerics (vs : list R) : mapM numeric (Float <$> vs) = Some vs.
Proof.
  apply mapM_Some. induction vs as [|v vs IH]; constructor; [done|apply IH].
Qed.

(** A run on a frame built by [frame_of] returns whenever the batch is not
    empty and the contamination is in range. *)
Lemma detect_frame_of (rs : RandomState) (ts : list Z) (vs : list R) c :
  vs ≠ [] → 0 < c ∧ c <= 1 / 2 →
  detect_anomalies_isolation_forest 0%nat c (world_of rs (frame_of ts vs))
  = (Returns (getitem_mask (scored (frame_of ts vs) (Float <$> vs) (labels_of c vs))
                (eq_scalar (-1) (Int <$> labels_of c vs))),
     set_heap (<[0%nat := scored (frame_of ts vs) (Float <$> vs) (labels_of c vs)]>
                 (heap (world_of rs (frame_of ts vs))))
       (world_of rs (frame_of ts vs))).
Proof.
  intros Hne Hc.
  apply (detect_returns 0%nat c _ (frame_of ts vs) (Float <$> vs) vs).
  - apply world_of_heap.
  - apply frame_of_value.
  - by destruct vs.
  - apply frame_of_numerics.
  - by rewrite length_fmap.
  - done.
Qed.

Lemma scored_idem df col labels :
  scored (scored df col labels) col labels = scored df col labels.
Proof.
  unfold scored, with_column. simpl. f_equal.
  apply map_eq. intros k.
  rewrite !lookup_insert. repeat case_decide; congruence.
Qed.

(** Calling again on the table the first call left gives the same result
    and leaves the same state. *)
Lemma detect_again data c world :
  detect_anomalies_isolation_forest data c
    (detect_anomalies_isolation_forest data c world).2
  = detect_anomalies_isolation_forest data c world.
Proof.
  destruct (detect_anomalies_isolation_forest data c world) as [[a|e] w'] eqn:Hrun.
  2: { pose proof (detect_raises_unchanged _ _ _ _ _ Hrun) as ->. exact Hrun. }
  destruct (heap world !! data) as [df|] eqn:Hd.
  2: { rewrite detect_run, Hd in Hrun. done. }
  destruct (detect_returns_inv _ _ _ _ _ _ Hd Hrun)
    as (col & xs & Hv & Hne & Hx & Hc & Hn & -> & ->).
  simpl.
  rewrite (detect_returns data c _ (scored df col (labels_of c xs)) col xs).
  - rewrite scored_idem. unfold set_heap. simpl. by rewrite insert_insert_eq.
  - apply lookup_insert_eq.
  - by rewrite scored_other.
  - done.
  - done.
  - done.
  - by apply valid_contamination_true.
Qed.

(** C3. Two scoring calls on the same batch with the same contamination
    end the same way (the same exception, or the same table of anomalies)
    and leave the same scored table, whatever else the two states hold (the
    process-wide random source included): the forest is grown from a source
    seeded with 42, so the decision scores and the labels are functions of
    the batch and the contamination alone.  A second call on the table the
    first one left changes nothing. *)
Theorem scoring_is_deterministic data c (w1 w2 : World) df :
  heap w1 !! data = Some df → heap w2 !! data = Some df →
  (detect_anomalies_isolation_forest data c w1).1
  = (detect_anomalies_isolation_forest data c w2).1
  ∧ heap (detect_anomalies_isolation_forest data c w1).2 !! data
    = heap (detect_anomalies_isolation_forest data c w2).2 !! data
  ∧ detect_anomalies_isolation_forest data c
      (detect_anomalies_isolation_forest data c w1).2
    = detect_anomalies_isolation_forest data c w1
  ∧ (∀ anomalies (w1' : World), detect_anomalies_isolation_forest data c w1 = (Returns anomalies, w1') →
       ∃ df' col xs, heap w1' !! data = Some df'
         ∧ columns df !! "value" = Some col ∧ mapM numeric col = Some xs
         ∧ columns df' !! "anomaly"
           = Some (Int <$> map label_of (scores_of c xs))).
Proof.
  intros H1 H2. split; [|split; [|split]].
  - rewrite !detect_run, H1, H2.
    destruct (columns df !! "value") as [col|]; [|done].
    destruct (valid_contamination c); [|done].
    destruct (check_array col) as [xs|e]; [|done].
    by destruct (length col =? nrows df)%nat.
  - rewrite !detect_run, H1, H2.
    destruct (columns df !! "value") as [col|]; [|simpl; congruence].
    destruct (valid_contamination c); [|simpl; congruence].
    destruct (check_array col) as [xs|e]; [|simpl; congruence].
    destruct (length col =? nrows df)%nat; [|simpl; congruence].
    simpl. by rewrite !lookup_insert_eq.
  - apply detect_again.
  - intros anomalies w1' Hrun.
    destruct (detect_returns_inv _ _ _ _ _ _ H1 Hrun)
      as (col & xs & Hv & Hne & Hx & Hc & Hn & -> & ->).
    exists (scored df col (labels_of c xs)), col, xs.
    split; [apply lookup_insert_eq|]. split; [done|]. split; [done|].
    rewrite scored_anomaly. unfold labels_of, scores_of.
    do 2 f_equal. symmetry. apply List.map_map.
Qed.

(** C4. A scoring call on a batch of at least one number, with a
    contamination in (0, 0.5], returns; and after a scoring call that
    returns, the caller's table holds one scored row for every observation,
    in the order of the input: it has as many rows as before, its
    [timestamp] and [value] columns are the ones it had, and row [i] of the
    [anomaly], [mean] and [std_dev] columns is the label of observation [i]
    and the rolling statistics of the window that ends at [i]. *)
Theorem every_observation_scored_once_in_order data c (world : World) df :
  heap world !! data = Some df →
  (∀ col xs,
     columns df !! "value" = Some col → col ≠ [] → mapM numeric col = Some xs →
     length col = nrows df → 0 < c ∧ c <= 1 / 2 →
     raised (detect_anomalies_isolation_forest data c world) = false)
  ∧ (∀ anomalies world',
       detect_anomalies_isolation_forest data c world = (Returns anomalies, world') →
       ∃ df' col xs labels means stds,
         heap world' !! data = Some df'
         ∧ columns df !! "value" = Some col ∧ mapM numeric col = Some xs
         ∧ nrows df' = nrows df ∧ length xs = nrows df
         ∧ columns df' !! "value" = Some col
         ∧ columns df' !! "timestamp" = columns df !! "timestamp"
         ∧ columns df' !! "anomaly" = Some (Int <$> labels)
         ∧ columns df' !! "mean" = Some means
         ∧ columns df' !! "std_dev" = Some stds
         ∧ length labels = nrows df ∧ length means = nrows df
         ∧ length stds = nrows df
         ∧ (∀ i x, xs !! i = Some x →
              labels !! i = Some (label_of (decision_function (forest_of c xs) x))
              ∧ means !! i = Some (Rolling.mean (window_values 5 i xs))
              ∧ stds !! i = Some (Rolling.std (window_values 5 i xs)))).
Proof.
  intros Hd. split.
  { intros col xs Hv Hne Hx Hn Hc.
    by rewrite (detect_returns data c world df col xs Hd Hv Hne Hx Hn Hc). }
  intros anomalies world' Hrun.
  destruct (detect_returns_inv _ _ _ _ _ _ Hd Hrun)
    as (col & xs & Hv & Hne & Hx & Hc & Hn & -> & ->).
  pose proof (numerics_length _ _ Hx) as Hlen.
  exists (scored df col (labels_of c xs)), col, xs, (labels_of c xs),
    (Rolling.rolling 5 1 Rolling.mean col), (Rolling.rolling 5 1 Rolling.std col).
  split; [apply lookup_insert_eq|]. split; [done|]. split; [done|].
  split; [done|]. split; [lia|].
  split; [by rewrite scored_other|]. split; [by rewrite scored_other|].
  split; [apply scored_anomaly|]. split; [apply scored_mean|].
  split; [apply scored_std_dev|].
  split; [rewrite labels_of_length; lia|].
  split; [rewrite rolling_length; lia|].
  split; [rewrite rolling_length; lia|].
  intros i x Hi. pose proof (lookup_lt_Some _ _ _ Hi) as Hlt.
  split; [|split].
  - unfold labels_of.
    change (map ?f xs) with (f <$> xs). by rewrite list_lookup_fmap, Hi.
  - apply (rolling_window 5 _ col xs i); [lia|done|done].
  - apply (rolling_window 5 _ col xs i); [lia|done|done].
Qed.

(** C9. A scoring call on a batch of at least one number, with a
    contamination in (0, 0.5], returns; and a scoring call that returns has
    changed the caller's table in place: the table now has the columns
    [anomaly], [mean] and [std_dev] (added, or overwritten if it had them),
    every other column, [timestamp] and [value] among them, is as it was,
    and so is the number of rows.  Nothing else in the state changes.  A
    table that had no [anomaly] column is not the table it was. *)
Theorem scoring_mutates_batch_in_place data c (world : World) df :
  heap world !! data = Some df →
  (∀ col xs,
     columns df !! "value" = Some col → col ≠ [] → mapM numeric col = Some xs →
     length col = nrows df → 0 < c ∧ c <= 1 / 2 →
     raised (detect_anomalies_isolation_forest data c world) = false)
  ∧ (∀ anomalies world',
       detect_anomalies_isolation_forest data c world = (Returns anomalies, world') →
       ∃ df' col xs,
         heap world' !! data = Some df'
         ∧ columns df !! "value" = Some col ∧ mapM numeric col = Some xs
         ∧ columns df' !! "anomaly" = Some (Int <$> labels_of c xs)
         ∧ columns df' !! "mean" = Some (Rolling.rolling 5 1 Rolling.mean col)
         ∧ columns df' !! "std_dev" = Some (Rolling.rolling 5 1 Rolling.std col)
         ∧ (∀ name, name ≠ "anomaly" → name ≠ "mean" → name ≠ "std_dev" →
              columns df' !! name = columns df !! name)
         ∧ columns df' !! "timestamp" = columns df !! "timestamp"
         ∧ columns df' !! "value" = columns df !! "value"
         ∧ nrows df' = nrows df
         ∧ (∀ other, other ≠ data → heap world' !! other = heap world !! other)
         ∧ files world' = files world ∧ stdout world' = stdout world
         ∧ np_random world' = np_random world
         ∧ (columns df !! "anomaly" = None → df' ≠ df)).
Proof.
  intros Hd. split.
  { intros col xs Hv Hne Hx Hn Hc.
    by rewrite (detect_returns data c world df col xs Hd Hv Hne Hx Hn Hc). }
  intros anomalies world' Hrun.
  destruct (detect_returns_inv _ _ _ _ _ _ Hd Hrun)
    as (col & xs & Hv & Hne & Hx & Hc & Hn & -> & ->).
  exists (scored df col (labels_of c xs)), col, xs.
  split; [apply lookup_insert_eq|]. split; [done|]. split; [done|].
  split; [apply scored_anomaly|]. split; [apply scored_mean|].
  split; [apply scored_std_dev|].
  split; [intros name ???; by apply scored_other|].
  split; [by rewrite scored_other|]. split; [by rewrite scored_other|].
  split; [done|].
  split; [intros other Ho; simpl; by rewrite lookup_insert_ne|].
  split; [done|]. split; [done|]. split; [done|].
  intros Hnone Heq.
  pose proof (scored_anomaly df col (labels_of c xs)) as Ha.
  rewrite Heq, Hnone in Ha. done.
Qed.

Lemma row_at_four (c1 c2 c3 c4 : list cell) i x1 x2 x3 x4 :
  c1 !! i = Some x1 → c2 !! i = Some x2 → c3 !! i = Some x3 → c4 !! i = Some x4 →
  row_at [c1; c2; c3; c4] i = [x1; x2; x3; x4].
Proof. intros H1 H2 H3 H4. unfold row_at. cbn. by rewrite H1, H2, H3, H4. Qed.

(** C5. A scoring call on a batch of at least one number, with a
    contamination in (0, 0.5], returns; and the export that follows a
    scoring call that returned writes one file, named by the dataset
    ([filename_for]); its header is the four columns
    [timestamp, value, mean, std_dev]; its lines are the rows of the scored
    table whose label is -1, each row whole, in the order of the batch. *)
Theorem export_writes_the_flagged_rows data c dataset_name (world : World) df ts :
  heap world !! data = Some df → columns df !! "timestamp" = Some ts →
  (∀ col xs,
     columns df !! "value" = Some col → col ≠ [] → mapM numeric col = Some xs →
     length col = nrows df → 0 < c ∧ c <= 1 / 2 →
     raised (detect_anomalies_isolation_forest data c world) = false)
  ∧ (∀ anomalies world1,
       detect_anomalies_isolation_forest data c world = (Returns anomalies, world1) →
       ∃ col xs,
         columns df !! "value" = Some col ∧ mapM numeric col = Some xs
         ∧ save_anomalies_to_csv anomalies dataset_name world1
           = (Returns (),
              set_stdout
                (stdout world1 ++ ["Anomalies saved to " +:+ filename_for dataset_name])
                (set_files
                   (<[filename_for dataset_name :=
                        {| header := ["timestamp"; "value"; "mean"; "std_dev"];
                           rows :=
                             select
                               (map (λ z, bool_decide (z = (-1)%Z)) (labels_of c xs))
                               (row_at [ts; col; Rolling.rolling 5 1 Rolling.mean col;
                                        Rolling.rolling 5 1 Rolling.std col]
                                  <$> seq 0 (nrows df)) |}]> (files world))
                   world1))
         ∧ length (labels_of c xs) = nrows df
         ∧ (length ts = nrows df → ∀ i, (i < nrows df)%nat →
              ∃ t v m s,
                ts !! i = Some t ∧ col !! i = Some v
                ∧ Rolling.rolling 5 1 Rolling.mean col !! i = Some m
                ∧ Rolling.rolling 5 1 Rolling.std col !! i = Some s
                ∧ (row_at [ts; col; Rolling.rolling 5 1 Rolling.mean col;
                           Rolling.rolling 5 1 Rolling.std col]
                     <$> seq 0 (nrows df)) !! i = Some [t; v; m; s])).
Proof.
  intros Hd Hts. split.
  { intros col xs Hv Hne Hx Hn Hc.
    by rewrite (detect_returns data c world df col xs Hd Hv Hne Hx Hn Hc). }
  intros anomalies world1 Hrun.
  destruct (detect_returns_inv _ _ _ _ _ _ Hd Hrun)
    as (col & xs & Hv & Hne & Hx & Hc & Hn & -> & ->).
  pose proof (numerics_length _ _ Hx) as Hlen.
  exists col, xs. split; [done|]. split; [done|].
  split; [|split; [rewrite labels_of_length; lia|]].
  - rewrite save_anomalies_to_csv_run.
    set (mask := eq_scalar (-1) (Int <$> labels_of c xs)).
    rewrite (getitem_list_four _ (select mask ts) (select mask col)
               (select mask (Rolling.rolling 5 1 Rolling.mean col))
               (select mask (Rolling.rolling 5 1 Rolling.std col)));
      [|rewrite getitem_mask_lookup..].
    2: { by rewrite scored_other, Hts. }
    2: { by rewrite scored_other, Hv. }
    2: { by rewrite scored_mean. }
    2: { by rewrite scored_std_dev. }
    change [select mask ts; select mask col;
            select mask (Rolling.rolling 5 1 Rolling.mean col);
            select mask (Rolling.rolling 5 1 Rolling.std col)]
      with (select mask <$> [ts; col; Rolling.rolling 5 1 Rolling.mean col;
                             Rolling.rolling 5 1 Rolling.std col]).
    change (nrows (getitem_mask _ mask)) with (length (filter (λ b, b = true) mask)).
    rewrite rows_select.
    assert (Hm : length mask = nrows df).
    { unfold mask. rewrite eq_scalar_length, length_fmap, labels_of_length. lia. }
    rewrite Hm. unfold mask. rewrite eq_scalar_labels. done.
  - intros Hlts i Hi.
    destruct (lookup_lt_is_Some_2 ts i) as [t Ht]; [lia|].
    destruct (lookup_lt_is_Some_2 col i) as [v Hvi]; [lia|].
    destruct (lookup_lt_is_Some_2 (Rolling.rolling 5 1 Rolling.mean col) i) as [m Hm];
      [rewrite rolling_length; lia|].
    destruct (lookup_lt_is_Some_2 (Rolling.rolling 5 1 Rolling.std col) i) as [s Hs];
      [rewrite rolling_length; lia|].
    exists t, v, m, s. repeat (split; [done|]).
    rewrite list_lookup_fmap, lookup_seq_lt by done. simpl.
    f_equal. by apply row_at_four.
Qed.

(** C10. For every dataset name other than the two the export knows, the
    file written is [nyc_taxi_anomalies.csv]: the name is never a reason to
    fail, and the export raises only when the table lacks one of the four
    columns, in which case nothing is written. *)
Theorem unrecognized_dataset_writes_taxi_file (dataset_name : string)
    (anomalies : DataFrame) (world : World) :
  dataset_name ≠ "Server CPU Load" →
  dataset_name ≠ "Ambient System Temperature" →
  filename_for dataset_name = "nyc_taxi_anomalies.csv"
  ∧ save_anomalies_to_csv anomalies dataset_name world
    = match getitem_list anomalies ["timestamp"; "value"; "mean"; "std_dev"] with
      | Returns cols =>
          (Returns (),
           set_stdout (stdout world ++ ["Anomalies saved to nyc_taxi_anomalies.csv"])
             (set_files
                (<["nyc_taxi_anomalies.csv" :=
                     {| header := ["timestamp"; "value"; "mean"; "std_dev"];
                        rows := row_at cols <$> seq 0 (nrows anomalies) |}]>
                   (files world)) world))
      | Raises e => (Raises e, world)
      end.
Proof.
  intros H1 H2.
  assert (Hf : filename_for dataset_name = "nyc_taxi_anomalies.csv").
  { unfold filename_for.
    rewrite (proj2 (String.eqb_neq _ _) H1), (proj2 (String.eqb_neq _ _) H2). done. }
  split; [done|]. by rewrite save_anomalies_to_csv_run, Hf.
Qed.

(** C6 (amended). The contamination is the one configuration value the
    scoring function can be given.  For every batch with a [value] column,
    a contamination outside (0, 0.5], 0 in particular, makes the call raise
    the estimator's [ValueError] (the program has no [ConfigurationError]):
    it is [fit] that raises, on a state in which no forest has been grown;
    nothing is returned and the state, the caller's table included, is left
    as it was. *)
Theorem invalid_contamination_raises_before_fitting data c (world : World) df col :
  heap world !! data = Some df → columns df !! "value" = Some col →
  ¬ (0 < c ∧ c <= 1 / 2) →
  ∃ msg,
    fit (IsolationForest_init c (Some 42%Z)) col world
    = (Raises (ValueError msg), world)
    ∧ detect_anomalies_isolation_forest data c world
      = (Raises (ValueError msg), world)
    ∧ isinstance (ValueError msg) "ValueError" = true
    ∧ isinstance (ValueError msg) "ConfigurationError" = false.
Proof.
  intros Hd Hv Hc. exists invalid_contamination.
  assert (Hvalid : valid_contamination c = false).
  { destruct (valid_contamination c) eqn:E; [|done].
    by apply valid_contamination_true in E. }
  split; [|split; [|done]].
  - unfold fit. cbn [contamination_ IsolationForest_init]. by rewrite Hvalid.
  - by rewrite detect_run, Hd, Hv, Hvalid.
Qed.

(** C7 (amended). On a batch with no observation the scoring call raises
    the estimator's [ValueError] (the program has no exception class of its
    own), whatever the contamination; the call returns nothing and leaves
    the state, the caller's table included, as it was. *)
Theorem empty_batch_raises_ValueError data c (world : World) df :
  heap world !! data = Some df → columns df !! "value" = Some [] →
  ∃ msg,
    detect_anomalies_isolation_forest data c world = (Raises (ValueError msg), world)
    ∧ isinstance (ValueError msg) "ValueError" = true
    ∧ isinstance (ValueError msg) "EmptyBatchError" = false.
Proof.
  intros Hd Hv. rewrite detect_run, Hd, Hv.
  destruct (valid_contamination c); simpl; eauto.
Qed.

End Claims.


(** ** A worked run: the scenario batch, scored and exported *)

Lemma scenario_run :
  detect_anomalies_isolation_forest (SK := stump) 0%nat (1 / 6) scenario_world
  = (Returns scenario_anomalies, scenario_world').
Proof. apply (detect_frame_of (SK := stump)); [done|lra]. Qed.

Lemma scenario_world_heap : heap scenario_world !! 0%nat = Some scenario_frame.
Proof. apply (world_of_heap (SK := stump)). Qed.

Lemma scenario_frame_timestamp :
  columns scenario_frame !! "timestamp" = Some (Int <$> [10; 20; 30; 40; 50; 60]%Z).
Proof. apply frame_of_timestamp. Qed.

Lemma scenario_frame_value :
  columns scenario_frame !! "value" = Some (Float <$> scenario).
Proof. apply frame_of_value. Qed.

Lemma empty_frame_value : columns empty_frame !! "value" = Some [].
Proof. apply (frame_of_value [] []). Qed.

(** The rolling mean of the scenario batch, the whole column. *)
Example scenario_mean_column :
  Rolling.rolling 5 1 Rolling.mean (Float <$> scenario)
  = Float <$> [1; 3 / 2; 2; 5 / 2; 3; 114 / 5].
Proof.
  unfold Rolling.rolling, scenario. cbn.
  unfold Rolling.average. cbn.
  repeat (apply (f_equal2 cons); [apply (f_equal Float); lra|]). done.
Qed.

(** The stand-in estimator flags the value 100 and nothing else. *)
Example scenario_labels_stump : scenario_labels = [1; 1; 1; 1; 1; -1]%Z.
Proof.
  unfold scenario_labels, labels_of, scenario, label_of. cbn.
  repeat match goal with
         | |- context [Rlt_dec ?a ?b] => destruct (Rlt_dec a b); try lra
         end.
  done.
Qed.

Lemma select_sixth {A} (l : list A) (x : A) :
  length l = 6%nat → l !! 5%nat = Some x →
  select [false; false; false; false; false; true] l = [x].
Proof.
  intros Hl Hx. do 7 (destruct l as [|? l]; try done).
  cbn in Hx. by injection Hx as ->.
Qed.

Section ScenarioClaim.

Context {SK : Sklearn}.


End ScenarioClaim.

(** The file the export writes for the scenario: one line, the row of the
    value 100 with the statistics of its window [2, 3, 4, 5, 100]. *)
Example scenario_export :
  ∃ world2,
    save_anomalies_to_csv scenario_anomalies "Server CPU Load" scenario_world'
    = (Returns (), world2)
    ∧ files world2 !! "cpu_anomalies.csv"
      = Some {| header := ["timestamp"; "value"; "mean"; "std_dev"];
                rows := [[Int 60; Float 100; Float (114 / 5);
                          Float (sqrt (18637 / 10))]] |}
    ∧ stdout world2 = ["Anomalies saved to cpu_anomalies.csv"].
Proof.
  assert (Hlm : length (Rolling.rolling 5 1 Rolling.mean (Float <$> scenario)) = 6%nat)
    by (by rewrite rolling_length).
  assert (Hls : length (Rolling.rolling 5 1 Rolling.std (Float <$> scenario)) = 6%nat)
    by (by rewrite rolling_length).
  assert (Hmask : eq_scalar (-1) (Int <$> scenario_labels)
                  = [false; false; false; false; false; true]).
  { by rewrite eq_scalar_labels, scenario_labels_stump. }
  assert (Hn : nrows scenario_anomalies = 1%nat).
  { unfold scenario_anomalies, getitem_mask. cbn [nrows]. by rewrite Hmask. }
  eexists. rewrite save_anomalies_to_csv_run.
  rewrite (getitem_list_four scenario_anomalies [Int 60] [Float 100]
             [Float (114 / 5)] [Float (sqrt (18637 / 10))]);
    [|unfold scenario_anomalies, scenario_scored;
      rewrite getitem_mask_lookup, Hmask..].
  - rewrite Hn. split; [reflexivity|]. split; [|reflexivity].
    unfold filename_for. simpl. by rewrite lookup_insert_eq.
  - by rewrite scored_other, scenario_frame_timestamp.
  - by rewrite scored_other, scenario_frame_value.
  - rewrite scored_mean. cbn [fmap option_fmap option_map].
    by rewrite (select_sixth _ _ Hlm scenario_mean_5).
  - rewrite scored_std_dev. cbn [fmap option_fmap option_map].
    by rewrite (select_sixth _ _ Hls scenario_std_5).
Qed.

(** ** The claims at concrete inputs *)

(** C1 at index 5 of the scenario batch. *)
Lemma rolling_statistics_trailing_window_witness :
  (1 ≤ 5)%nat ∧ mapM numeric (Float <$> scenario) = Some scenario
  ∧ (5 < length scenario)%nat
  ∧ Rolling.rolling 5 1 Rolling.mean (Float <$> scenario) !! 5%nat
    = Some (Float (sample_mean (window_values 5 5 scenario))).
Proof.
  assert (H1 : (1 ≤ 5)%nat) by lia.
  assert (H2 : mapM numeric (Float <$> scenario) = Some scenario) by reflexivity.
  assert (H3 : (5 < length scenario)%nat) by (simpl; lia).
  split; [exact H1|]. split; [exact H2|]. split; [exact H3|].
  exact (proj1 (rolling_statistics_trailing_window (SK := stump)
                  5 (Float <$> scenario) scenario 5 H1 H2 H3)).
Defined.

(** C2 on the constant batch [7, 7, 7]. *)
Lemma rolling_std_single_window_and_constant_batch_witness :
  (1 ≤ 5)%nat ∧ mapM numeric (Float <$> replicate 3 7%R) = Some (replicate 3 7%R)
  ∧ (2 < length (replicate 3 7%R))%nat
  ∧ Rolling.rolling 5 1 Rolling.std (Float <$> replicate 3 7%R) !! 0%nat = Some NaN
  ∧ Rolling.rolling 5 1 Rolling.mean (Float <$> replicate 3 7%R) !! 2%nat
    = Some (Float 7)
  ∧ Rolling.rolling 5 1 Rolling.std (Float <$> replicate 3 7%R) !! 2%nat
    = Some (Float 0).
Proof.
  assert (H1 : (1 ≤ 5)%nat) by lia.
  assert (H2 : mapM numeric (Float <$> replicate 3 7%R) = Some (replicate 3 7%R))
    by reflexivity.
  assert (H3 : (2 < length (replicate 3 7%R))%nat) by (simpl; lia).
  split; [exact H1|]. split; [exact H2|]. split; [exact H3|].
  destruct (rolling_std_single_window_and_constant_batch
              5 (Float <$> replicate 3 7%R) (replicate 3 7%R) 2 H1 H2 H3)
    as (_ & _ & Hzero & Hconst).
  split; [exact Hzero|].
  destruct (Hconst 7%R eq_refl) as [Hmean Hstd].
  split; [exact Hmean|]. apply Hstd. simpl. lia.
Defined.

(** C3 on the scenario batch, from two states that differ in the
    process-wide random source. *)
Lemma scoring_is_deterministic_witness :
  heap scenario_world !! 0%nat = Some scenario_frame
  ∧ heap (world_of (SK := stump) 99%Z scenario_frame) !! 0%nat = Some scenario_frame
  ∧ (detect_anomalies_isolation_forest 0%nat (1 / 6) scenario_world).1
    = (detect_anomalies_isolation_forest 0%nat (1 / 6)
         (world_of (SK := stump) 99%Z scenario_frame)).1.
Proof.
  assert (H1 := scenario_world_heap).
  assert (H2 := world_of_heap (SK := stump) 99%Z scenario_frame).
  split; [exact H1|]. split; [exact H2|].
  exact (proj1 (scoring_is_deterministic (SK := stump) 0%nat (1 / 6)
                  scenario_world (world_of (SK := stump) 99%Z scenario_frame)
                  scenario_frame H1 H2)).
Defined.

(** C4 on the scenario batch: six observations, six scored rows. *)
Lemma every_observation_scored_once_in_order_witness :
  heap scenario_world !! 0%nat = Some scenario_frame
  ∧ detect_anomalies_isolation_forest 0%nat (1 / 6) scenario_world
    = (Returns scenario_anomalies, scenario_world')
  ∧ ∃ df' labels,
      heap scenario_world' !! 0%nat = Some df'
      ∧ nrows df' = nrows scenario_frame
      ∧ columns df' !! "anomaly" = Some (Int <$> labels)
      ∧ length labels = nrows scenario_frame.
Proof.
  assert (H1 := scenario_world_heap). assert (H2 := scenario_run).
  split; [exact H1|]. split; [exact H2|].
  destruct (every_observation_scored_once_in_order (SK := stump) 0%nat (1 / 6)
              scenario_world scenario_frame H1) as [_ Hscored].
  destruct (Hscored scenario_anomalies scenario_world' H2)
    as (df' & col & xs & labels & means & stds & Hd & _ & _ & Hn & _ & _ & _
        & Ha & _ & _ & Hl & _).
  exists df', labels. repeat split; assumption.
Defined.

(** C5 on the scenario batch, exported as the CPU dataset. *)
Lemma export_writes_the_flagged_rows_witness :
  heap scenario_world !! 0%nat = Some scenario_frame
  ∧ columns scenario_frame !! "timestamp" = Some (Int <$> [10; 20; 30; 40; 50; 60]%Z)
  ∧ detect_anomalies_isolation_forest 0%nat (1 / 6) scenario_world
    = (Returns scenario_anomalies, scenario_world')
  ∧ raised (save_anomalies_to_csv scenario_anomalies "Server CPU Load" scenario_world')
    = false.
Proof.
  assert (H1 := scenario_world_heap). assert (H2 := scenario_frame_timestamp).
  assert (H3 := scenario_run).
  split; [exact H1|]. split; [exact H2|]. split; [exact H3|].
  destruct (export_writes_the_flagged_rows (SK := stump) 0%nat (1 / 6)
              "Server CPU Load" scenario_world scenario_frame _ H1 H2)
    as [_ Hexport].
  destruct (Hexport scenario_anomalies scenario_world' H3)
    as (col & xs & _ & _ & Hsave & _).
  rewrite Hsave. reflexivity.
Defined.

(** C6 (amended) at contamination 0, on the scenario batch. *)
Lemma invalid_contamination_raises_before_fitting_witness :
  heap scenario_world !! 0%nat = Some scenario_frame
  ∧ columns scenario_frame !! "value" = Some (Float <$> scenario)
  ∧ ¬ (0 < 0 ∧ 0 <= 1 / 2)
  ∧ ∃ msg,
      detect_anomalies_isolation_forest 0%nat 0 scenario_world
      = (Raises (ValueError msg), scenario_world).
Proof.
  assert (H1 := scenario_world_heap). assert (H2 := scenario_frame_value).
  assert (H3 : ¬ (0 < 0 ∧ 0 <= 1 / 2)).
  { intros [H _]. exact (Rlt_irrefl 0 H). }
  split; [exact H1|]. split; [exact H2|]. split; [exact H3|].
  destruct (invalid_contamination_raises_before_fitting (SK := stump)
              0%nat 0 scenario_world scenario_frame (Float <$> scenario) H1 H2 H3)
    as (msg & _ & Hrun & _).
  exists msg. exact Hrun.
Defined.

(** C6, as stated, fails: with contamination 0 the call on the scenario
    batch raises, but what it raises is the estimator's [ValueError], and
    no [ConfigurationError]. *)
Lemma zero_contamination_exception_is_no_ConfigurationError :
  columns scenario_frame !! "value" = Some (Float <$> scenario)
  ∧ ∀ (SK : Sklearn) (rs : RandomState),
      ∃ e, detect_anomalies_isolation_forest 0%nat 0 (world_of rs scenario_frame)
           = (Raises e, world_of rs scenario_frame)
        ∧ isinstance e "ValueError" = true
        ∧ isinstance e "ConfigurationError" = false.
Proof.
  split; [apply scenario_frame_value|]. intros SK rs.
  rewrite detect_run, world_of_heap, scenario_frame_value.
  assert (Hvalid : valid_contamination 0 = false).
  { destruct (valid_contamination 0) eqn:E; [|done].
    apply valid_contamination_true in E. lra. }
  rewrite Hvalid. eauto.
Qed.

(** C7 (amended) on the empty batch. *)
Lemma empty_batch_raises_ValueError_witness :
  heap (world_of (SK := stump) 0%Z empty_frame) !! 0%nat = Some empty_frame
  ∧ columns empty_frame !! "value" = Some []
  ∧ ∃ msg,
      detect_anomalies_isolation_forest 0%nat (1 / 100)
        (world_of (SK := stump) 0%Z empty_frame)
      = (Raises (ValueError msg), world_of (SK := stump) 0%Z empty_frame).
Proof.
  assert (H1 := world_of_heap (SK := stump) 0%Z empty_frame).
  assert (H2 := empty_frame_value).
  split; [exact H1|]. split; [exact H2|].
  destruct (empty_batch_raises_ValueError (SK := stump) 0%nat (1 / 100)
              (world_of (SK := stump) 0%Z empty_frame) empty_frame H1 H2)
    as (msg & Hrun & _).
  exists msg. exact Hrun.
Defined.

(** C7, as stated, fails: the exception raised on the empty batch is a
    [ValueError] of the estimator, and no [EmptyBatchError]. *)
Lemma empty_batch_exception_is_no_EmptyBatchError :
  nrows empty_frame = 0%nat
  ∧ ∀ (SK : Sklearn) (rs : RandomState) (c : R),
      ∃ e, detect_anomalies_isolation_forest 0%nat c (world_of rs empty_frame)
           = (Raises e, world_of rs empty_frame)
        ∧ exception_classes e = ["ValueError"; "Exception"]
        ∧ isinstance e "EmptyBatchError" = false.
Proof.
  split; [done|]. intros SK rs c.
  rewrite detect_run, world_of_heap, empty_frame_value.
  destruct (valid_contamination c); simpl; eauto.
Qed.


(** C9 on the scenario batch: the table gains the three columns. *)
Lemma scoring_mutates_batch_in_place_witness :
  heap scenario_world !! 0%nat = Some scenario_frame
  ∧ detect_anomalies_isolation_forest 0%nat (1 / 6) scenario_world
    = (Returns scenario_anomalies, scenario_world')
  ∧ ∃ df',
      heap scenario_world' !! 0%nat = Some df'
      ∧ columns df' !! "timestamp" = columns scenario_frame !! "timestamp"
      ∧ columns df' !! "value" = columns scenario_frame !! "value"
      ∧ df' ≠ scenario_frame.
Proof.
  assert (H1 := scenario_world_heap). assert (H2 := scenario_run).
  split; [exact H1|]. split; [exact H2|].
  destruct (scoring_mutates_batch_in_place (SK := stump) 0%nat (1 / 6)
              scenario_world scenario_frame H1) as [_ Hframe].
  destruct (Hframe scenario_anomalies scenario_world' H2)
    as (df' & col & xs & Hd & _ & _ & _ & _ & _ & _ & Ht & Hv & _ & _ & _ & _ & _ & Hne).
  exists df'. split; [exact Hd|]. split; [exact Ht|]. split; [exact Hv|].
  apply Hne. reflexivity.
Defined.

(** C10 for the third dataset of the program, and the name it is known by. *)
Lemma unrecognized_dataset_writes_taxi_file_witness :
  "NYC Taxi Demand" ≠ "Server CPU Load"
  ∧ "NYC Taxi Demand" ≠ "Ambient System Temperature"
  ∧ filename_for "NYC Taxi Demand" = "nyc_taxi_anomalies.csv".
Proof.
  assert (H1 : "NYC Taxi Demand" ≠ "Server CPU Load") by discriminate.
  assert (H2 : "NYC Taxi Demand" ≠ "Ambient System Temperature") by discriminate.
  split; [exact H1|]. split; [exact H2|].
  exact (proj1 (unrecognized_dataset_writes_taxi_file (SK := stump)
                  "NYC Taxi Demand" scenario_anomalies scenario_world H1 H2)).
Defined.

(** ** Further properties of the scoring function *)

Section ScoringFacts.

Context {SK : Sklearn}.

Implicit Types (df : DataFrame) (col : list cell) (data : loc).

Lemma label_of_cases (x : R) : label_of x = (-1)%Z ∨ label_of x = 1%Z.
Proof. unfold label_of. destruct (Rlt_dec x 0); auto. Qed.

(** X1. The scoring call raises a [KeyError] exactly when the table has no
    [value] column; the failure comes at the first statement and nothing
    has changed.  Every other failure of the call is a [ValueError]. *)
Theorem scoring_without_value_column_raises_KeyError data c (world : World) df :
  heap world !! data = Some df →
  (∀ world',
     (∃ msg, detect_anomalies_isolation_forest data c world
             = (Raises (KeyError msg), world'))
     ↔ columns df !! "value" = None ∧ world' = world)
  ∧ (∀ e world',
       detect_anomalies_isolation_forest data c world = (Raises e, world') →
       is_Some (columns df !! "value") → ∃ msg, e = ValueError msg).
Proof.
  intros Hd. rewrite detect_run, Hd. split.
  - intros world'. destruct (columns df !! "value") as [col|] eqn:Hv.
    + split; [|by intros [? _]]. intros [msg Hrun].
      destruct (valid_contamination c); [|done].
      destruct (check_array col) as [xs|e] eqn:Hc.
      * by destruct (length col =? nrows df)%nat.
      * destruct (check_array_raises_ValueError _ _ Hc) as [msg' ->]. done.
    + split; [by intros [msg [= _ <-]]|]. intros [_ ->].
      unfold not_in_index. eauto.
  - intros e world' Hrun [col Hv]. rewrite Hv in Hrun.
    destruct (valid_contamination c); [|injection Hrun as <- _; eauto].
    destruct (check_array col) as [xs|e'] eqn:Hc.
    + destruct (length col =? nrows df)%nat; [done|].
      injection Hrun as <- _; eauto.
    + injection Hrun as <- _. by eapply check_array_raises_ValueError.
Qed.

(** X3. A scoring call that returns was given a table with a non-empty
    [value] column and a contamination in (0, 0.5]; and a call that raises,
    whatever it raises, leaves the whole state as it found it: no column is
    added before the last check has passed. *)
Theorem scoring_returns_only_on_good_input_and_raising_changes_nothing data c
    (world : World) df :
  heap world !! data = Some df →
  (raised (detect_anomalies_isolation_forest data c world) = false →
   ∃ col, columns df !! "value" = Some col ∧ col ≠ [] ∧ 0 < c ∧ c <= 1 / 2)
  ∧ (∀ e world', detect_anomalies_isolation_forest data c world = (Raises e, world') →
       world' = world).
Proof.
  intros Hd. split.
  - destruct (detect_anomalies_isolation_forest data c world) as [[a|e] w'] eqn:Hrun;
      [|done]. intros _.
    destruct (detect_returns_inv _ _ _ _ _ _ Hd Hrun)
      as (col & xs & Hv & Hne & Hx & Hc & Hn & _).
    apply valid_contamination_true in Hc. by exists col.
  - intros e world' Hrun. by apply (detect_raises_unchanged data c world e).
Qed.

(** X4. After a scoring call that returns, every cell of the [anomaly] column
    is the integer -1 or the integer 1. *)
Theorem anomaly_column_holds_only_minus_one_and_one data c (world : World) df
    anomalies world' :
  heap world !! data = Some df →
  detect_anomalies_isolation_forest data c world = (Returns anomalies, world') →
  ∃ df' labels,
    heap world' !! data = Some df'
    ∧ columns df' !! "anomaly" = Some labels
    ∧ length labels = nrows df
    ∧ Forall (λ cell, cell = Int (-1) ∨ cell = Int 1) labels.
Proof.
  intros Hd Hrun.
  destruct (detect_returns_inv _ _ _ _ _ _ Hd Hrun)
    as (col & xs & Hv & Hne & Hx & Hc & Hn & -> & ->).
  exists (scored df col (labels_of c xs)), (Int <$> labels_of c xs).
  split; [apply lookup_insert_eq|]. split; [apply scored_anomaly|].
  split. { rewrite length_fmap, labels_of_length, <- (numerics_length _ _ Hx). done. }
  apply Forall_fmap, Forall_forall. intros z Hz. unfold labels_of in Hz.
  apply list_elem_of_In, in_map_iff in Hz as (x & <- & _). simpl.
  destruct (label_of_cases (decision_function (forest_of c xs) x)) as [->| ->]; auto.
Qed.

End ScoringFacts.

(** ** The table of anomalies a scoring call returns *)

Section ReturnedFacts.

Context {SK : Sklearn}.

Implicit Types (df : DataFrame) (col : list cell) (data : loc) (mask : list bool).

Lemma select_sublist {A} mask (l : list A) : select mask l `sublist_of` l.
Proof.
  revert l. induction mask as [|b mask IH]; intros [|x l]; simpl;
    try apply sublist_nil_l.
  destruct b; [by apply sublist_skip|by apply sublist_cons].
Qed.

Lemma select_length {A} mask (l : list A) :
  length l = length mask →
  length (select mask l) = length (filter (λ b, b = true) mask).
Proof.
  revert l. induction mask as [|b mask IH]; intros [|x l] Hl; try done.
  injection Hl as Hl. simpl. destruct b.
  - rewrite filter_cons_True by done. simpl. by rewrite IH.
  - rewrite filter_cons_False by done. by rewrite IH.
Qed.

Lemma flagged_count (labels : list Z) :
  length (filter (λ b, b = true) (map (λ z, bool_decide (z = (-1)%Z)) labels))
  = length (filter (λ z, z = (-1)%Z) labels).
Proof.
  induction labels as [|z labels IH]; [done|]. simpl.
  destruct (decide (z = (-1)%Z)) as [Hz|Hz].
  - rewrite bool_decide_true by done.
    rewrite !filter_cons_True by done. simpl. by rewrite IH.
  - rewrite bool_decide_false by done.
    rewrite !filter_cons_False by done. done.
Qed.

Lemma filter_none (labels : list Z) :
  Forall (λ z, z ≠ (-1)%Z) labels → filter (λ z, z = (-1)%Z) labels = [].
Proof.
  induction 1 as [|z labels Hz _ IH]; [done|].
  by rewrite filter_cons_False.
Qed.

Lemma select_flagged_labels (labels : list Z) :
  select (map (λ z, bool_decide (z = (-1)%Z)) labels) (Int <$> labels)
  = replicate (length (filter (λ z, z = (-1)%Z) labels)) (Int (-1)).
Proof.
  induction labels as [|z labels IH]; [done|].
  rewrite fmap_cons. cbn [map].
  destruct (decide (z = (-1)%Z)) as [Hz|Hz].
  - rewrite bool_decide_true by done.
    rewrite filter_cons_True by done. cbn [select length replicate].
    rewrite Hz. f_equal. apply IH.
  - rewrite bool_decide_false by done.
    rewrite filter_cons_False by done. cbn [select]. apply IH.
Qed.

(** X5. The table a scoring call returns holds the flagged rows and no other:
    its number of rows is the number of labels -1, at most the size of the
    batch, and its [anomaly] column is -1 throughout. *)
Theorem returned_table_holds_only_flagged_rows data c (world : World) df
    anomalies world' :
  heap world !! data = Some df →
  detect_anomalies_isolation_forest data c world = (Returns anomalies, world') →
  ∃ col xs,
    columns df !! "value" = Some col ∧ mapM numeric col = Some xs
    ∧ nrows anomalies = length (filter (λ z, z = (-1)%Z) (labels_of c xs))
    ∧ (nrows anomalies ≤ nrows df)%nat
    ∧ columns anomalies !! "anomaly" = Some (replicate (nrows anomalies) (Int (-1)))
    ∧ (frame_empty anomalies = true
       ↔ Forall (λ x, ¬ decision_function (forest_of c xs) x < 0) xs).
Proof.
  intros Hd Hrun.
  destruct (detect_returns_inv _ _ _ _ _ _ Hd Hrun)
    as (col & xs & Hv & Hne & Hx & Hc & Hn & -> & ->).
  pose proof (numerics_length _ _ Hx) as Hlen.
  exists col, xs. split; [done|]. split; [done|].
  assert (Hrows : nrows (getitem_mask (scored df col (labels_of c xs))
                           (eq_scalar (-1) (Int <$> labels_of c xs)))
                  = length (filter (λ z, z = (-1)%Z) (labels_of c xs))).
  { unfold getitem_mask. simpl. by rewrite eq_scalar_labels, flagged_count. }
  split; [done|]. split.
  { rewrite Hrows. pose proof (length_filter (λ z, z = (-1)%Z) (labels_of c xs)) as Hf.
    rewrite labels_of_length in Hf. lia. }
  split.
  { rewrite getitem_mask_lookup, scored_anomaly, Hrows. simpl.
    by rewrite eq_scalar_labels, select_flagged_labels. }
  unfold frame_empty. rewrite Hrows.
  assert (Hcols : columns (getitem_mask (scored df col (labels_of c xs))
                    (eq_scalar (-1) (Int <$> labels_of c xs))) ≠ ∅).
  { intros He.
    pose proof (getitem_mask_lookup (scored df col (labels_of c xs))
                  (eq_scalar (-1) (Int <$> labels_of c xs)) "anomaly") as Hl.
    rewrite He, lookup_empty, scored_anomaly in Hl. done. }
  rewrite (bool_decide_false _ Hcols), orb_false_r, Nat.eqb_eq.
  rewrite length_zero_iff_nil. split.
  - intros Hnil. apply Forall_forall. intros x Hin Hneg.
    assert (Hmem : (-1)%Z ∈ filter (λ z, z = (-1)%Z) (labels_of c xs)).
    { apply list_elem_of_filter. split; [done|]. unfold labels_of.
      apply list_elem_of_In, in_map_iff. exists x. split.
      - unfold label_of. by destruct (Rlt_dec _ 0).
      - by apply list_elem_of_In. }
    rewrite Hnil in Hmem. by apply elem_of_nil in Hmem.
  - intros Hall. apply filter_none, Forall_forall.
    intros z Hz. unfold labels_of in Hz.
    apply list_elem_of_In, in_map_iff in Hz as (x & <- & Hin).
    apply list_elem_of_In in Hin. rewrite Forall_forall in Hall.
    specialize (Hall x Hin). unfold label_of.
    by destruct (Rlt_dec (decision_function (forest_of c xs) x) 0).
Qed.

(** X6. The returned table has the columns of the scored table, each one a
    subsequence of the scored column (the order of the batch is kept), and
    as long as the returned table when the scored column is as long as the
    batch. *)
Theorem returned_columns_are_subsequences data c (world : World) df
    anomalies world' :
  heap world !! data = Some df →
  detect_anomalies_isolation_forest data c world = (Returns anomalies, world') →
  ∃ df',
    heap world' !! data = Some df'
    ∧ (∀ name, is_Some (columns anomalies !! name) ↔ is_Some (columns df' !! name))
    ∧ (∀ name col', columns anomalies !! name = Some col' →
         ∃ col0, columns df' !! name = Some col0
           ∧ col' `sublist_of` col0
           ∧ (length col0 = nrows df → length col' = nrows anomalies)).
Proof.
  intros Hd Hrun.
  destruct (detect_returns_inv _ _ _ _ _ _ Hd Hrun)
    as (col & xs & Hv & Hne & Hx & Hc & Hn & -> & ->).
  pose proof (numerics_length _ _ Hx) as Hlen.
  exists (scored df col (labels_of c xs)).
  split; [apply lookup_insert_eq|]. split.
  - intros name. rewrite getitem_mask_lookup. apply fmap_is_Some.
  - intros name col'. rewrite getitem_mask_lookup.
    destruct (columns (scored df col (labels_of c xs)) !! name) as [col0|]; [|done].
    intros [= <-]. exists col0. split; [done|]. split; [apply select_sublist|].
    intros Hl0. unfold getitem_mask. simpl. apply select_length.
    rewrite eq_scalar_length, length_fmap, labels_of_length. lia.
Qed.

End ReturnedFacts.

(** ** Further properties of the rolling statistics *)

Section RollingMore.

Implicit Types (w i j : nat) (col : list cell) (xs : list R).


End RollingMore.

(** ** Further properties of the export *)

Section ExportMore.

Context {SK : Sklearn}.

Implicit Types (df anomalies : DataFrame) (dataset_name : string).

Lemma filename_for_cases dataset_name :
  (dataset_name = "Server CPU Load" ∧ filename_for dataset_name = "cpu_anomalies.csv")
  ∨ (dataset_name = "Ambient System Temperature"
     ∧ filename_for dataset_name = "temperature_anomalies.csv")
  ∨ (dataset_name ≠ "Server CPU Load" ∧ dataset_name ≠ "Ambient System Temperature"
     ∧ filename_for dataset_name = "nyc_taxi_anomalies.csv").
Proof.
  unfold filename_for.
  destruct (String.eqb_spec dataset_name "Server CPU Load") as [->|H1]; [by left|].
  destruct (String.eqb_spec dataset_name "Ambient System Temperature") as [->|H2];
    [by right; left|]. by right; right.
Qed.

(** X9. Exporting a table that lacks one of the four columns (a table that was
    never scored, for one) raises a [KeyError]; no file is written and
    nothing is printed. *)
Theorem export_of_a_table_missing_a_column_raises_KeyError anomalies dataset_name
    (world : World) (key : string) :
  key ∈ ["timestamp"; "value"; "mean"; "std_dev"] →
  columns anomalies !! key = None →
  ∃ msg,
    save_anomalies_to_csv anomalies dataset_name world
    = (Raises (KeyError msg), world).
Proof.
  intros Hin Hnone. rewrite save_anomalies_to_csv_run.
  destruct (getitem_list_raises anomalies _ key Hin Hnone) as [msg ->].
  by exists msg.
Qed.

(** X10. An export of a table whose four columns are as long as the table writes
    one line per row, line [i] being cell [i] of the four columns in the
    order timestamp, value, mean, std_dev.  It prints one line, and touches
    neither the tables nor any other file nor the random source. *)
Theorem export_writes_one_line_per_row_and_nothing_else anomalies dataset_name
    (world : World) (ts vs ms ss : list cell) :
  columns anomalies !! "timestamp" = Some ts → columns anomalies !! "value" = Some vs →
  columns anomalies !! "mean" = Some ms → columns anomalies !! "std_dev" = Some ss →
  length ts = nrows anomalies → length vs = nrows anomalies →
  length ms = nrows anomalies → length ss = nrows anomalies →
  ∃ world' lines,
    save_anomalies_to_csv anomalies dataset_name world = (Returns (), world')
    ∧ files world' !! filename_for dataset_name
      = Some {| header := ["timestamp"; "value"; "mean"; "std_dev"]; rows := lines |}
    ∧ length lines = nrows anomalies
    ∧ (∀ i t v m s, ts !! i = Some t → vs !! i = Some v → ms !! i = Some m →
         ss !! i = Some s → lines !! i = Some [t; v; m; s])
    ∧ (∀ other, other ≠ filename_for dataset_name →
         files world' !! other = files world !! other)
    ∧ heap world' = heap world ∧ np_random world' = np_random world
    ∧ stdout world'
      = stdout world ++ ["Anomalies saved to " +:+ filename_for dataset_name].
Proof.
  intros Ht Hv Hm Hs Hlt Hlv Hlm Hls.
  rewrite save_anomalies_to_csv_run, (getitem_list_four _ _ _ _ _ Ht Hv Hm Hs).
  eexists _, _. split; [done|]. simpl.
  split; [apply lookup_insert_eq|].
  split; [by rewrite length_fmap, length_seq|].
  split.
  { intros i t v m s Hti Hvi Hmi Hsi.
    rewrite list_lookup_fmap, lookup_seq_lt by (apply lookup_lt_Some in Hti; lia).
    simpl. f_equal. by apply row_at_four. }
  split; [intros other Ho; by rewrite lookup_insert_ne|]. done.
Qed.

(** X11. A later export replaces an earlier one that chose the same file: after
    exporting [first] under one name and [second] under another, the file of
    the second name holds the second table; the first table's file is still
    there exactly when the two file names differ, and two different dataset
    names share a file exactly when neither is one of the two known names. *)
Theorem later_export_overwrites_same_file (first second : DataFrame)
    (name1 name2 : string) (world world1 world2 : World) :
  save_anomalies_to_csv first name1 world = (Returns (), world1) →
  save_anomalies_to_csv second name2 world1 = (Returns (), world2) →
  files world2 !! filename_for name2
  = files (save_anomalies_to_csv second name2 world).2 !! filename_for name2
  ∧ (filename_for name1 ≠ filename_for name2 →
       files world2 !! filename_for name1 = files world1 !! filename_for name1)
  ∧ (filename_for name1 = filename_for name2
     ↔ name1 = name2
       ∨ (name1 ≠ "Server CPU Load" ∧ name1 ≠ "Ambient System Temperature"
          ∧ name2 ≠ "Server CPU Load" ∧ name2 ≠ "Ambient System Temperature")).
Proof.
  rewrite !save_anomalies_to_csv_run.
  destruct (getitem_list first _) as [cols1|e1]; [|done]. intros [= <-].
  destruct (getitem_list second _) as [cols2|e2]; [|done]. intros [= <-].
  simpl. split; [by rewrite !lookup_insert_eq|].
  split; [intros Hne; by rewrite lookup_insert_ne|].
  destruct (filename_for_cases name1) as [[-> ->]|[[-> ->]|(H1 & H2 & ->)]],
           (filename_for_cases name2) as [[-> ->]|[[-> ->]|(H3 & H4 & ->)]];
    split; intros H; try done; try (by left); try (by right);
    destruct H as [H|(? & ? & ? & ?)]; congruence.
Qed.

End ExportMore.

(** ** Running the session monad *)

Section GuiRun.

Context {SK : Sklearn}.

Implicit Types (s : Session) (df anomalies : DataFrame) (fig ax data : loc).

Lemma grun_bind {A B} (m : G A) (k : A → G B) s :
  (m ≫= k) s = match m s with
                | (Returns a, s') => k a s'
                | (Raises e, s') => (Raises e, s')
                end.
Proof. reflexivity. Qed.

Lemma gbind_returns {A B} (m : G A) (k : A → G B) s a s' :
  m s = (Returns a, s') → (m ≫= k) s = k a s'.
Proof. intros H. by rewrite grun_bind, H. Qed.

Lemma gbind_raises {A B} (m : G A) (k : A → G B) s e s' :
  m s = (Raises e, s') → (m ≫= k) s = (Raises e, s').
Proof. intros H. by rewrite grun_bind, H. Qed.

Lemma set_world_id s : set_world (world s) s = s.
Proof. by destruct s. Qed.

Lemma in_world_run {A} (m : M A) s r w' :
  m (world s) = (r, w') → in_world m s = (r, set_world w' s).
Proof. intros H. unfold in_world. by rewrite H. Qed.

Lemma in_world_pure {A} (m : M A) s r :
  m (world s) = (r, world s) → in_world m s = (r, s).
Proof. intros H. rewrite (in_world_run m s r _ H). by rewrite set_world_id. Qed.

Lemma ax_call_run ax (a : artist) s (arts : list artist) :
  axes s !! ax = Some arts →
  ax_call ax a s = (Returns (), set_axes (<[ax := arts ++ [a]]> (axes s)) s).
Proof.
  intros H. unfold ax_call, gmodify.
  by rewrite (lookup_total_correct _ _ _ H).
Qed.

Lemma dict_get_returns (d : loc) s cur :
  dicts s !! d = Some cur → dict_get d s = (Returns cur, s).
Proof. intros H. unfold dict_get. by rewrite H. Qed.

Lemma dict_set_run (d : loc) (f : Current → Current) s cur :
  dicts s !! d = Some cur →
  dict_set d f s = (Returns (), set_dicts (<[d := f cur]> (dicts s)) s).
Proof.
  intros H. unfold dict_set.
  by rewrite (gbind_returns _ _ _ _ _ (dict_get_returns _ _ _ H)).
Qed.

End GuiRun.

(** ** The plot, case by case *)

Section Visualize.

Context {SK : Sklearn}.

Implicit Types (s : Session) (df anomalies : DataFrame) (fig ax data : loc).

Lemma ax_clear_run ax s : ax_clear ax s = (Returns (), with_axes ax [] s).
Proof. reflexivity. Qed.

Lemma ax_call_with_axes ax (a : artist) (arts : list artist) s :
  ax_call ax a (with_axes ax arts s) = (Returns (), with_axes ax (arts ++ [a]) s).
Proof.
  unfold ax_call, gmodify, with_axes, set_axes. simpl.
  by rewrite lookup_total_insert_eq, insert_insert_eq.
Qed.

Lemma draw_idle_with_axes fig ax (arts : list artist) s :
  draw_idle fig (with_axes ax arts s) = (Returns (), drawn fig ax arts s).
Proof. reflexivity. Qed.

Lemma ylabel_call ax (dataset_name : string) :
  (if String.eqb dataset_name "Server CPU Load" then
     ax_call ax (YLabel "CPU Utilization (%)")
   else if String.eqb dataset_name "Ambient System Temperature" then
     ax_call ax (YLabel "Temperature (°C)")
   else ax_call ax (YLabel "Taxi Demand (rides)"))
  = ax_call ax (YLabel (ylabel_for dataset_name)).
Proof.
  unfold ylabel_for.
  by destruct (String.eqb dataset_name "Server CPU Load"),
              (String.eqb dataset_name "Ambient System Temperature").
Qed.

(** From the y-label on, the function only appends the decorations and asks
    for a redraw. *)
Lemma decorate_run fig ax (dataset_name : string) (arts : list artist) s :
  (ax_call ax (YLabel (ylabel_for dataset_name));;
   ax_call ax (Title (dataset_name +:+ " Data Stream with IsolationForest Anomalies"));;
   ax_call ax (XLabel "Timestamp");;
   ax_call ax Legend;;
   ax_call ax (TickParams "x" 45);;
   ax_call ax Relim;;
   ax_call ax AutoscaleView;;
   draw_idle fig) (with_axes ax arts s)
  = (Returns (), drawn fig ax (arts ++ decorations dataset_name) s).
Proof.
  repeat (rewrite (gbind_returns _ _ _ _ _ (ax_call_with_axes _ _ _ _))).
  rewrite draw_idle_with_axes. unfold decorations.
  by rewrite <- !app_assoc.
Qed.

Lemma visualize_data_run fig ax data anomalies (dataset_name : string) s :
  visualize_data fig ax data anomalies dataset_name s
  = match heap (world s) !! data with
    | None => (Raises (NameError "unbound reference"), with_axes ax [] s)
    | Some df =>
        match columns df !! "timestamp" with
        | None => (Raises (KeyError "timestamp"), with_axes ax [] s)
        | Some x =>
            match columns df !! "value" with
            | None => (Raises (KeyError "value"), with_axes ax [] s)
            | Some y =>
                if frame_empty anomalies then
                  (Returns (),
                   drawn fig ax (Plot x y "Data Stream" "blue"
                                 :: decorations dataset_name) s)
                else
                  match columns anomalies !! "timestamp" with
                  | None => (Raises (KeyError "timestamp"),
                             with_axes ax [Plot x y "Data Stream" "blue"] s)
                  | Some ax_ =>
                      match columns anomalies !! "value" with
                      | None => (Raises (KeyError "value"),
                                 with_axes ax [Plot x y "Data Stream" "blue"] s)
                      | Some ay =>
                          (Returns (),
                           drawn fig ax (Plot x y "Data Stream" "blue"
                                         :: Scatter ax_ ay "red" "Anomalies" 5
                                         :: decorations dataset_name) s)
                      end
                  end
            end
        end
    end.
Proof.
  unfold visualize_data. rewrite ylabel_call.
  rewrite (gbind_returns _ _ _ _ _ (ax_clear_run ax s)).
  destruct (heap (world s) !! data) as [df|] eqn:Hd.
  2: { by rewrite (gbind_raises _ _ _ _ _
            (in_world_pure _ (with_axes ax [] s) _ (getitem_unbound _ _ _ Hd))). }
  destruct (columns df !! "timestamp") as [x|] eqn:Ht.
  2: { by rewrite (gbind_raises _ _ _ _ _
            (in_world_pure _ (with_axes ax [] s) _ (getitem_raises _ _ _ _ Hd Ht))). }
  rewrite (gbind_returns _ _ _ _ _
             (in_world_pure _ (with_axes ax [] s) _ (getitem_returns _ _ _ _ _ Hd Ht))).
  destruct (columns df !! "value") as [y|] eqn:Hv.
  2: { by rewrite (gbind_raises _ _ _ _ _
            (in_world_pure _ (with_axes ax [] s) _ (getitem_raises _ _ _ _ Hd Hv))). }
  rewrite (gbind_returns _ _ _ _ _
             (in_world_pure _ (with_axes ax [] s) _ (getitem_returns _ _ _ _ _ Hd Hv))).
  rewrite (gbind_returns _ _ _ _ _ (ax_call_with_axes _ _ _ _)). simpl app.
  destruct (frame_empty anomalies); simpl negb; cbv iota.
  { rewrite (gbind_returns (gret ()) _ _ () _ eq_refl). apply decorate_run. }
  unfold frame_getitem.
  destruct (columns anomalies !! "timestamp") as [ax_|]; [|done].
  destruct (columns anomalies !! "value") as [ay|]; [|done].
  rewrite grun_bind. unfold glift at 1. rewrite grun_bind. unfold glift at 1.
  rewrite grun_bind, ax_call_with_axes. apply decorate_run.
Qed.

End Visualize.

(** ** What the plot and the scoring leave alone *)

Section Frames.

Context {SK : Sklearn}.

Implicit Types (s : Session) (df anomalies : DataFrame) (fig ax data : loc).

Lemma detect_frame data c (w w' : World) (r : outcome DataFrame) :
  detect_anomalies_isolation_forest data c w = (r, w') →
  files w' = files w ∧ stdout w' = stdout w ∧ np_random w' = np_random w
  ∧ (∀ other, other ≠ data → heap w' !! other = heap w !! other).
Proof.
  rewrite detect_run.
  destruct (heap w !! data) as [df|]; [|by intros [= _ <-]].
  destruct (columns df !! "value") as [col|]; [|by intros [= _ <-]].
  destruct (valid_contamination c); [|by intros [= _ <-]].
  destruct (check_array col) as [xs|e0]; [|by intros [= _ <-]].
  destruct (length col =? nrows df)%nat; [|by intros [= _ <-]].
  intros [= _ <-]. simpl. repeat split.
  intros other Ho. by rewrite lookup_insert_ne.
Qed.

Lemma visualize_data_frame fig ax data anomalies (dataset_name : string) s
    (r : outcome unit) s' :
  visualize_data fig ax data anomalies dataset_name s = (r, s') →
  world s' = world s ∧ dicts s' = dicts s
  ∧ (∀ other, other ≠ ax → axes s' !! other = axes s !! other).
Proof.
  rewrite visualize_data_run. intros H.
  assert (Hw : ∀ arts, world (with_axes ax arts s) = world s
                       ∧ dicts (with_axes ax arts s) = dicts s
                       ∧ (∀ other, other ≠ ax →
                            axes (with_axes ax arts s) !! other = axes s !! other)).
  { intros arts. repeat split. intros other Ho. simpl. by rewrite lookup_insert_ne. }
  assert (Hdr : ∀ arts, world (drawn fig ax arts s) = world s
                        ∧ dicts (drawn fig ax arts s) = dicts s
                        ∧ (∀ other, other ≠ ax →
                             axes (drawn fig ax arts s) !! other = axes s !! other)).
  { intros arts. repeat split. intros other Ho. simpl. by rewrite lookup_insert_ne. }
  destruct (heap (world s) !! data) as [df|]; [|injection H as _ <-; apply Hw].
  destruct (columns df !! "timestamp") as [x|]; [|injection H as _ <-; apply Hw].
  destruct (columns df !! "value") as [y|]; [|injection H as _ <-; apply Hw].
  destruct (frame_empty anomalies); [injection H as _ <-; apply Hdr|].
  destruct (columns anomalies !! "timestamp") as [ax_|]; [|injection H as _ <-; apply Hw].
  destruct (columns anomalies !! "value") as [ay|]; injection H as _ <-;
    [apply Hdr|apply Hw].
Qed.

(** The scoring and the plot, composed. *)
Lemma process_full_data_run fig ax data (dataset_name : string) c s :
  process_full_data fig ax data dataset_name c s
  = match detect_anomalies_isolation_forest data c (world s) with
    | (Raises e, _) => (Raises e, s)
    | (Returns anomalies, w') =>
        match visualize_data fig ax data anomalies dataset_name (set_world w' s) with
        | (Returns _, s') => (Returns anomalies, s')
        | (Raises e, s') => (Raises e, s')
        end
    end.
Proof.
  unfold process_full_data. rewrite grun_bind. unfold in_world at 1.
  destruct (detect_anomalies_isolation_forest data c (world s)) as [[a|e] w'] eqn:Hrun.
  - rewrite grun_bind.
    destruct (visualize_data fig ax data a dataset_name (set_world w' s)) as [[[]|e] s']; done.
  - rewrite (detect_raises_unchanged _ _ _ _ _ Hrun). by rewrite set_world_id.
Qed.

Lemma process_full_data_frame fig ax data (dataset_name : string) c s
    (r : outcome DataFrame) s' :
  process_full_data fig ax data dataset_name c s = (r, s') →
  dicts s' = dicts s ∧ stdout (world s') = stdout (world s)
  ∧ files (world s') = files (world s)
  ∧ (∀ other, other ≠ data → heap (world s') !! other = heap (world s) !! other).
Proof.
  rewrite process_full_data_run.
  destruct (detect_anomalies_isolation_forest data c (world s)) as [[a|e] w'] eqn:Hrun.
  2: { by intros [= _ <-]. }
  destruct (detect_frame _ _ _ _ _ Hrun) as (Hf & Ho & _ & Hh).
  destruct (visualize_data fig ax data a dataset_name (set_world w' s))
    as [[[]|e] s1] eqn:Hvis;
    destruct (visualize_data_frame _ _ _ _ _ _ _ _ Hvis) as (Hw & Hdi & _);
    intros [= _ <-]; rewrite Hw, Hdi; simpl; auto.
Qed.

End Frames.

(** ** Properties of the plot and of the scoring with its plot *)

Section PlotFacts.

Context {SK : Sklearn}.

Implicit Types (s : Session) (df anomalies : DataFrame) (fig ax data : loc).

(** X12. [visualize_data] rebuilds the plot from nothing: whatever the axes held
    before, it holds afterwards the line of the whole batch, the scatter of
    the anomalies exactly when their table is not empty, and the
    decorations; one redraw is requested.  The tables, the files, the
    dictionaries and every other axes are left alone. *)
Theorem plot_is_rebuilt_from_scratch fig ax data anomalies (dataset_name : string)
    s df (x y : list cell) :
  heap (world s) !! data = Some df →
  columns df !! "timestamp" = Some x → columns df !! "value" = Some y →
  frame_empty anomalies = true
  ∨ (is_Some (columns anomalies !! "timestamp")
     ∧ is_Some (columns anomalies !! "value")) →
  ∃ marks s',
    visualize_data fig ax data anomalies dataset_name s = (Returns (), s')
    ∧ axes s' !! ax
      = Some (Plot x y "Data Stream" "blue" :: marks ++ decorations dataset_name)
    ∧ (frame_empty anomalies = true → marks = [])
    ∧ (frame_empty anomalies = false →
         ∃ mx my, columns anomalies !! "timestamp" = Some mx
           ∧ columns anomalies !! "value" = Some my
           ∧ marks = [Scatter mx my "red" "Anomalies" 5])
    ∧ (∀ previous,
         axes (visualize_data fig ax data anomalies dataset_name
                 (with_axes ax previous s)).2 !! ax
         = axes s' !! ax)
    ∧ redraws s' !! fig = Some (S (redraws s !!! fig))
    ∧ world s' = world s ∧ dicts s' = dicts s
    ∧ (∀ other, other ≠ ax → axes s' !! other = axes s !! other).
Proof.
  intros Hd Ht Hv Han.
  assert (Hrun : ∀ s0, world s0 = world s →
    visualize_data fig ax data anomalies dataset_name s0
    = (Returns (),
       drawn fig ax
         (Plot x y "Data Stream" "blue"
          :: (if frame_empty anomalies then []
              else match columns anomalies !! "timestamp",
                         columns anomalies !! "value" with
                   | Some mx, Some my => [Scatter mx my "red" "Anomalies" 5]
                   | _, _ => []
                   end) ++ decorations dataset_name) s0)).
  { intros s0 Hw. rewrite visualize_data_run, Hw, Hd, Ht, Hv.
    destruct (frame_empty anomalies); [done|].
    destruct Han as [?|[[mx Ha] [my Hb]]]; [done|]. by rewrite Ha, Hb. }
  eexists _, _. split; [apply Hrun; done|].
  split; [apply lookup_insert_eq|].
  split; [by intros ->|].
  split.
  { intros He. rewrite He. destruct Han as [Hc|[[mx Ha] [my Hb]]]; [congruence|].
    exists mx, my. by rewrite Ha, Hb. }
  split.
  { intros previous. rewrite (Hrun (with_axes ax previous s) eq_refl). simpl.
    by rewrite !lookup_insert_eq. }
  split; [apply lookup_insert_eq|].
  split; [done|]. split; [done|].
  intros other Ho. simpl. by rewrite lookup_insert_ne.
Qed.

(** X13. When the table has no [timestamp] column the plot call raises
    [KeyError('timestamp')], but only after the axes was cleared: the
    previous plot is gone, nothing is drawn in its place and no redraw is
    requested. *)
Theorem plot_without_timestamp_column_clears_and_raises fig ax data anomalies
    (dataset_name : string) s df :
  heap (world s) !! data = Some df → columns df !! "timestamp" = None →
  ∃ s',
    visualize_data fig ax data anomalies dataset_name s
    = (Raises (KeyError "timestamp"), s')
    ∧ axes s' !! ax = Some []
    ∧ redraws s' = redraws s ∧ world s' = world s ∧ dicts s' = dicts s.
Proof.
  intros Hd Ht. rewrite visualize_data_run, Hd, Ht.
  eexists. split; [done|]. split; [apply lookup_insert_eq|]. done.
Qed.

(** X14. When the scoring raises, [process_full_data] raises the same exception
    and the session is untouched: the plot still shows what it showed.
    When the scoring returns but the table has no [timestamp] column, the
    call raises [KeyError('timestamp')] with the table already scored in
    place and the axes cleared. *)
Theorem scoring_with_plot_failure_modes fig ax data (dataset_name : string) c s df :
  heap (world s) !! data = Some df →
  (∀ e w', detect_anomalies_isolation_forest data c (world s) = (Raises e, w') →
     process_full_data fig ax data dataset_name c s = (Raises e, s))
  ∧ (∀ anomalies w',
       detect_anomalies_isolation_forest data c (world s) = (Returns anomalies, w') →
       columns df !! "timestamp" = None →
       ∃ s' df',
         process_full_data fig ax data dataset_name c s
         = (Raises (KeyError "timestamp"), s')
         ∧ world s' = w' ∧ heap w' !! data = Some df'
         ∧ is_Some (columns df' !! "anomaly")
         ∧ axes s' !! ax = Some []).
Proof.
  intros Hd. split.
  - intros e w' Hrun. by rewrite process_full_data_run, Hrun.
  - intros anomalies w' Hrun Ht. rewrite process_full_data_run, Hrun.
    destruct (detect_returns_inv _ _ _ _ _ _ Hd Hrun)
      as (col & xs & Hv & Hne & Hx & Hc & Hn & -> & ->).
    set (w1 := set_heap (<[data:=scored df col (labels_of c xs)]> (heap (world s)))
                 (world s)).
    assert (Hd1 : heap (world (set_world w1 s)) !! data
                  = Some (scored df col (labels_of c xs))) by apply lookup_insert_eq.
    exists (with_axes ax [] (set_world w1 s)), (scored df col (labels_of c xs)).
    rewrite visualize_data_run, Hd1, scored_other, Ht by done.
    split; [done|]. split; [done|]. split; [apply lookup_insert_eq|].
    split; [rewrite scored_anomaly; eauto|]. apply lookup_insert_eq.
Qed.

(** X15. When the scoring returns and the table has a [timestamp] column,
    [process_full_data] returns the very table of anomalies the scoring
    returned, leaves the state the scoring left, and the plot shows the
    whole batch as a line and the flagged rows, a subsequence of it, as the
    scatter (none when nothing is flagged). *)
Theorem scoring_with_plot_shows_batch_and_flagged_rows fig ax data
    (dataset_name : string) c s df ts anomalies w' :
  heap (world s) !! data = Some df → columns df !! "timestamp" = Some ts →
  detect_anomalies_isolation_forest data c (world s) = (Returns anomalies, w') →
  ∃ col marks s',
    columns df !! "value" = Some col
    ∧ process_full_data fig ax data dataset_name c s = (Returns anomalies, s')
    ∧ world s' = w'
    ∧ axes s' !! ax
      = Some (Plot ts col "Data Stream" "blue" :: marks ++ decorations dataset_name)
    ∧ (nrows anomalies = 0%nat → marks = [])
    ∧ (nrows anomalies ≠ 0%nat →
         ∃ fx fy, marks = [Scatter fx fy "red" "Anomalies" 5]
           ∧ columns anomalies !! "timestamp" = Some fx
           ∧ columns anomalies !! "value" = Some fy
           ∧ fx `sublist_of` ts ∧ fy `sublist_of` col).
Proof.
  intros Hd Ht Hrun.
  destruct (detect_returns_inv _ _ _ _ _ _ Hd Hrun)
    as (col & xs & Hv & Hne & Hx & Hc & Hn & Ha & ->).
  set (mask := eq_scalar (-1) (Int <$> labels_of c xs)) in *.
  set (df' := scored df col (labels_of c xs)) in *.
  set (w1 := set_heap (<[data:=df']> (heap (world s))) (world s)) in *.
  assert (Ht1 : columns df' !! "timestamp" = Some ts).
  { unfold df'. by rewrite scored_other, Ht. }
  assert (Hv1 : columns df' !! "value" = Some col).
  { unfold df'. by rewrite scored_other, Hv. }
  assert (Hat : columns anomalies !! "timestamp" = Some (select mask ts)).
  { by rewrite Ha, getitem_mask_lookup, Ht1. }
  assert (Hav : columns anomalies !! "value" = Some (select mask col)).
  { by rewrite Ha, getitem_mask_lookup, Hv1. }
  assert (Hemp : frame_empty anomalies = (nrows anomalies =? 0)%nat).
  { unfold frame_empty. rewrite bool_decide_false, orb_false_r; [done|].
    intros He. by rewrite He, lookup_empty in Hat. }
  assert (Hd1 : heap (world (set_world w1 s)) !! data = Some df')
    by apply lookup_insert_eq.
  set (marks := if (nrows anomalies =? 0)%nat then []
                else [Scatter (select mask ts) (select mask col) "red" "Anomalies" 5]).
  assert (Hvis : visualize_data fig ax data anomalies dataset_name (set_world w1 s)
                 = (Returns (),
                    drawn fig ax (Plot ts col "Data Stream" "blue"
                                  :: marks ++ decorations dataset_name)
                      (set_world w1 s))).
  { rewrite visualize_data_run, Hd1, Ht1, Hv1, Hemp, Hat, Hav. unfold marks.
    by destruct (nrows anomalies =? 0)%nat. }
  exists col, marks, (drawn fig ax (Plot ts col "Data Stream" "blue"
                                    :: marks ++ decorations dataset_name)
                        (set_world w1 s)).
  split; [done|]. split; [by rewrite process_full_data_run, Hrun, Hvis|].
  split; [done|]. split; [apply lookup_insert_eq|]. unfold marks.
  split.
  - intros H0. by rewrite (proj2 (Nat.eqb_eq _ _) H0).
  - intros H0. rewrite (proj2 (Nat.eqb_neq _ _) H0).
    exists (select mask ts), (select mask col).
    repeat split; try done; apply select_sublist.
Qed.

End PlotFacts.

(** ** The button handlers, case by case *)

Section Handlers.

Context {SK : Sklearn}.

Implicit Types (s : Session) (df anomalies : DataFrame) (fig ax data : loc)
  (datasets : list (string * loc)) (cur : Current).

Lemma list_index_returns (x : string) (names : list string) k :
  NoDup names → names !! k = Some x → list_index x names = Returns k.
Proof.
  revert k. induction names as [|y names IH]; intros k Hnd Hk; [done|].
  apply NoDup_cons in Hnd as [Hy Hnd]. destruct k as [|k]; simpl in *.
  - injection Hk as ->. by rewrite String.eqb_refl.
  - destruct (String.eqb_spec y x) as [->|Hne].
    + exfalso. apply Hy. by eapply list_elem_of_lookup_2.
    + by rewrite (IH k Hnd Hk).
Qed.

Lemma list_index_raises (x : string) (names : list string) :
  x ∉ names → ∃ msg, list_index x names = Raises (ValueError msg).
Proof.
  induction names as [|y names IH]; intros Hx; [by eexists|]. simpl.
  apply not_elem_of_cons in Hx as [Hne Hx].
  destruct (String.eqb_spec y x) as [->|_]; [done|].
  destruct (IH Hx) as [msg ->]. by eexists.
Qed.

Lemma dict_getitem_returns datasets j (key : string) (l : loc) :
  NoDup datasets.*1 → datasets !! j = Some (key, l) →
  dict_getitem datasets key = Returns l.
Proof.
  revert j. induction datasets as [|[k v] datasets IH]; intros j Hnd Hj; [done|].
  rewrite fmap_cons in Hnd. apply NoDup_cons in Hnd as [Hk Hnd].
  destruct j as [|j]; simpl in *.
  - injection Hj as -> ->. by rewrite String.eqb_refl.
  - destruct (String.eqb_spec k key) as [->|Hne]; [|by apply (IH j)].
    exfalso. apply Hk. apply list_elem_of_fmap. exists (key, l).
    split; [done|]. by eapply list_elem_of_lookup_2.
Qed.

Lemma names_lookup datasets j (key : string) (l : loc) :
  datasets !! j = Some (key, l) → datasets.*1 !! j = Some key.
Proof. intros H. by rewrite list_lookup_fmap, H. Qed.

(** The session once the dictionary was switched and the line printed:
    what [switch_dataset] hands to [process_full_data]. *)
Lemma switch_dataset_run fig ax (current_data : loc) datasets (event : unit) s cur
    k (l : loc) (name' : string) (l' : loc) :
  dicts s !! current_data = Some cur → NoDup datasets.*1 →
  datasets !! k = Some (cur_name cur, l) →
  datasets !! ((k + 1) `mod` length datasets)%nat = Some (name', l') →
  switch_dataset fig ax current_data datasets event s
  = match process_full_data fig ax l' name' default_contamination
            (set_world
               (set_stdout (stdout (world s) ++ ["Switched to " +:+ name' +:+ " Dataset"])
                  (world s))
               (set_dicts (<[current_data := {| cur_name := name'; cur_data := l' |}]>
                             (dicts s)) s)) with
    | (Returns _, s') => (Returns (), s')
    | (Raises e, s') => (Raises e, s')
    end.
Proof.
  intros Hcur Hnd Hk Hk'. unfold switch_dataset.
  rewrite (gbind_returns _ _ _ _ _ (dict_get_returns _ _ _ Hcur)).
  rewrite grun_bind. unfold glift at 1.
  rewrite (list_index_returns _ _ k Hnd (names_lookup _ _ _ _ Hk)).
  rewrite (list_lookup_total_correct _ _ _ (names_lookup _ _ _ _ Hk')).
  rewrite grun_bind. unfold glift at 1.
  rewrite (dict_getitem_returns _ _ _ _ Hnd Hk').
  rewrite (gbind_returns _ _ _ _ _ (dict_set_run _ _ _ _ Hcur)).
  set (s1 := set_dicts _ s).
  assert (H1 : dicts s1 !! current_data
               = Some {| cur_name := cur_name cur; cur_data := l' |})
    by apply lookup_insert_eq.
  rewrite (gbind_returns _ _ _ _ _ (dict_set_run _ _ _ _ H1)).
  set (s2 := set_dicts _ s1).
  assert (H2 : dicts s2 !! current_data = Some {| cur_name := name'; cur_data := l' |})
    by apply lookup_insert_eq.
  rewrite (gbind_returns _ _ _ _ _ (dict_get_returns _ _ _ H2)).
  rewrite grun_bind. unfold in_world at 1, print, modify. simpl.
  rewrite grun_bind. unfold dict_get at 1. simpl. rewrite lookup_insert_eq.
  rewrite grun_bind. unfold s2, s1, set_dicts. simpl. rewrite insert_insert_eq.
  destruct (process_full_data fig ax l' name' default_contamination _) as [[a|e] s'];
    done.
Qed.

Lemma save_anomalies_run fig ax (current_data : loc) (event : unit) s cur :
  dicts s !! current_data = Some cur →
  save_anomalies fig ax current_data event s
  = match process_full_data fig ax (cur_data cur) (cur_name cur)
            default_contamination s with
    | (Returns anomalies, s') =>
        in_world (save_anomalies_to_csv anomalies (cur_name cur)) s'
    | (Raises e, s') => (Raises e, s')
    end.
Proof.
  intros Hcur. unfold save_anomalies.
  rewrite (gbind_returns _ _ _ _ _ (dict_get_returns _ _ _ Hcur)).
  rewrite grun_bind.
  destruct (process_full_data fig ax (cur_data cur) (cur_name cur)
              default_contamination s) as [[a|e] s'] eqn:Hp; [|done].
  destruct (process_full_data_frame _ _ _ _ _ _ _ _ Hp) as (Hdi & _).
  assert (Hcur' : dicts s' !! current_data = Some cur) by (by rewrite Hdi).
  by rewrite (gbind_returns _ _ _ _ _ (dict_get_returns _ _ _ Hcur')).
Qed.

End Handlers.

(** ** Properties of the button handlers *)

Section HandlerFacts.

Context {SK : Sklearn}.

Implicit Types (s : Session) (df anomalies : DataFrame) (fig ax data : loc)
  (datasets : list (string * loc)) (cur : Current).

Lemma process_full_data_returns_scored fig ax data (dataset_name : string) c s
    anomalies s' :
  process_full_data fig ax data dataset_name c s = (Returns anomalies, s') →
  ∃ df', heap (world s') !! data = Some df'
    ∧ is_Some (columns df' !! "anomaly") ∧ is_Some (columns df' !! "mean")
    ∧ is_Some (columns df' !! "std_dev").
Proof.
  rewrite process_full_data_run.
  destruct (detect_anomalies_isolation_forest data c (world s)) as [[a|e] w'] eqn:Hrun;
    [|done].
  destruct (heap (world s) !! data) as [df|] eqn:Hd.
  2: { rewrite detect_run, Hd in Hrun. done. }
  destruct (detect_returns_inv _ _ _ _ _ _ Hd Hrun)
    as (col & xs & Hv & Hne & Hx & Hc & Hn & -> & ->).
  destruct (visualize_data _ _ _ _ _ _) as [[[]|e] s1] eqn:Hvis; [|done].
  destruct (visualize_data_frame _ _ _ _ _ _ _ _ Hvis) as (Hw & _).
  intros [= _ <-]. rewrite Hw. simpl. rewrite lookup_insert_eq.
  eexists. split; [done|].
  rewrite scored_anomaly, scored_mean, scored_std_dev. eauto.
Qed.

(** X16. [switch_dataset] raises [ValueError] when the current name is not a key
    of [datasets] (an empty [datasets] included); nothing is switched,
    printed, scored or drawn. *)
Theorem switch_with_unknown_current_name_raises_ValueError fig ax
    (current_data : loc) datasets (event : unit) s cur :
  dicts s !! current_data = Some cur → cur_name cur ∉ datasets.*1 →
  ∃ msg, switch_dataset fig ax current_data datasets event s
         = (Raises (ValueError msg), s).
Proof.
  intros Hcur Hnot. unfold switch_dataset.
  rewrite (gbind_returns _ _ _ _ _ (dict_get_returns _ _ _ Hcur)).
  rewrite grun_bind. unfold glift at 1.
  destruct (list_index_raises _ _ Hnot) as [msg ->]. by exists msg.
Qed.

(** X17. [switch_dataset] makes the entry after the current one, cyclically, the
    current dataset and prints its name, and it does so before the scoring:
    the switch and the printed line stand even when the call raises.  The
    new current table is the very object held in [datasets], and is the
    only table that can change; when the call returns that table has been
    scored in place.  No file is written. *)
Theorem switch_moves_to_the_next_dataset fig ax (current_data : loc) datasets
    (event : unit) s cur k (l : loc) (name' : string) (l' : loc) :
  dicts s !! current_data = Some cur → NoDup datasets.*1 →
  datasets !! k = Some (cur_name cur, l) →
  datasets !! ((k + 1) `mod` length datasets)%nat = Some (name', l') →
  ∃ r s',
    switch_dataset fig ax current_data datasets event s = (r, s')
    ∧ dicts s' !! current_data = Some {| cur_name := name'; cur_data := l' |}
    ∧ (∀ other, other ≠ current_data → dicts s' !! other = dicts s !! other)
    ∧ stdout (world s')
      = stdout (world s) ++ ["Switched to " +:+ name' +:+ " Dataset"]
    ∧ files (world s') = files (world s)
    ∧ (∀ other, other ≠ l' → heap (world s') !! other = heap (world s) !! other)
    ∧ (r = Returns () →
         ∃ df', heap (world s') !! l' = Some df'
           ∧ is_Some (columns df' !! "anomaly") ∧ is_Some (columns df' !! "mean")
           ∧ is_Some (columns df' !! "std_dev")).
Proof.
  intros Hcur Hnd Hk Hk'.
  rewrite (switch_dataset_run fig ax current_data datasets event s cur k l name' l'
             Hcur Hnd Hk Hk').
  set (s1 := set_world _ _).
  destruct (process_full_data fig ax l' name' default_contamination s1)
    as [[a|e] s'] eqn:Hp;
    destruct (process_full_data_frame _ _ _ _ _ _ _ _ Hp) as (Hdi & Hout & Hfi & Hhe);
    eexists _, s'; (split; [done|]); rewrite Hdi, Hout, Hfi.
  - split; [apply lookup_insert_eq|].
    split; [intros other Ho; simpl; by rewrite lookup_insert_ne|].
    split; [done|]. split; [done|]. split; [intros other Ho; by rewrite Hhe|].
    intros _. by apply (process_full_data_returns_scored _ _ _ _ _ _ _ _ Hp).
  - split; [apply lookup_insert_eq|].
    split; [intros other Ho; simpl; by rewrite lookup_insert_ne|].
    split; [done|]. split; [done|]. split; [intros other Ho; by rewrite Hhe|].
    done.
Qed.

Lemma switch_click_next fig ax (current_data : loc) datasets s cur k (l : loc)
    (name' : string) (l' : loc) :
  dicts s !! current_data = Some cur → NoDup datasets.*1 →
  datasets !! k = Some (cur_name cur, l) →
  datasets !! ((k + 1) `mod` length datasets)%nat = Some (name', l') →
  dicts (click (switch_dataset fig ax current_data datasets) s) !! current_data
  = Some {| cur_name := name'; cur_data := l' |}.
Proof.
  intros Hcur Hnd Hk Hk'. unfold click.
  rewrite (switch_dataset_run fig ax current_data datasets () s cur k l name' l'
             Hcur Hnd Hk Hk').
  set (s1 := set_world _ _).
  destruct (process_full_data fig ax l' name' default_contamination s1)
    as [[a|e] s'] eqn:Hp;
    destruct (process_full_data_frame _ _ _ _ _ _ _ _ Hp) as (Hdi & _);
    simpl; rewrite Hdi; apply lookup_insert_eq.
Qed.

(** X18. Clicking the switch button walks through [datasets] in order and wraps
    around: after [j] clicks the current dataset is the entry [j] places
    after the starting one, cyclically, and after as many clicks as there
    are datasets the dictionary [current_data] is what it was, whether the
    scorings on the way returned or raised. *)
Theorem switching_cycles_through_the_datasets fig ax (current_data : loc) datasets
    s cur k :
  dicts s !! current_data = Some cur → NoDup datasets.*1 →
  datasets !! k = Some (cur_name cur, cur_data cur) →
  (∀ j, ∃ name l,
     datasets !! ((k + j) `mod` length datasets)%nat = Some (name, l)
     ∧ dicts (Nat.iter j (click (switch_dataset fig ax current_data datasets)) s)
         !! current_data
       = Some {| cur_name := name; cur_data := l |})
  ∧ dicts (Nat.iter (length datasets)
             (click (switch_dataset fig ax current_data datasets)) s) !! current_data
    = Some cur.
Proof.
  intros Hcur Hnd Hk.
  pose proof (lookup_lt_Some _ _ _ Hk) as Hlt.
  assert (Hn : length datasets ≠ 0%nat) by lia.
  assert (Hall : ∀ j, ∃ name l,
     datasets !! ((k + j) `mod` length datasets)%nat = Some (name, l)
     ∧ dicts (Nat.iter j (click (switch_dataset fig ax current_data datasets)) s)
         !! current_data
       = Some {| cur_name := name; cur_data := l |}).
  { induction j as [|j (name & l & Hj & Hd)].
    - exists (cur_name cur), (cur_data cur).
      rewrite Nat.add_0_r, Nat.mod_small by done. split; [done|].
      simpl. rewrite Hcur. by destruct cur.
    - destruct (lookup_lt_is_Some_2 datasets ((k + S j) `mod` length datasets)%nat)
        as [[name' l'] Hj']; [by apply Nat.mod_upper_bound|].
      exists name', l'. split; [done|]. cbn [Nat.iter nat_rect].
      apply (switch_click_next fig ax current_data datasets _ _
               ((k + j) `mod` length datasets)%nat l name' l' Hd Hnd Hj).
      rewrite Nat.Div0.add_mod_idemp_l.
      by replace (k + j + 1)%nat with (k + S j)%nat by lia. }
  split; [done|].
  destruct (Hall (length datasets)) as (name & l & Hj & Hd).
  rewrite Hd. f_equal.
  replace ((k + length datasets) `mod` length datasets)%nat with k in Hj.
  - rewrite Hk in Hj. injection Hj as <- <-. by destruct cur.
  - rewrite <- (Nat.mod_small k (length datasets)) at 1 by done.
    rewrite <- (Nat.mul_1_l (length datasets)) at 2.
    by rewrite Nat.Div0.mod_add.
Qed.

End HandlerFacts.

(** ** The export button, and the export of an empty table *)

Section ExportButton.

Context {SK : Sklearn}.

Implicit Types (s : Session) (df anomalies : DataFrame) (fig ax data : loc)
  (cur : Current).

(** The columns of the table a scoring call returned, when the batch has a
    [timestamp] column: all four columns of the export are there. *)
Lemma returned_four_columns data c (w w' : World) df ts anomalies :
  heap w !! data = Some df → columns df !! "timestamp" = Some ts →
  detect_anomalies_isolation_forest data c w = (Returns anomalies, w') →
  ∃ fts fvs fms fss,
    getitem_list anomalies ["timestamp"; "value"; "mean"; "std_dev"]
    = Returns [fts; fvs; fms; fss].
Proof.
  intros Hd Ht Hrun.
  destruct (detect_returns_inv _ _ _ _ _ _ Hd Hrun)
    as (col & xs & Hv & Hne & Hx & Hc & Hn & -> & ->).
  eexists _, _, _, _. apply getitem_list_four; rewrite getitem_mask_lookup.
  - by rewrite scored_other, Ht.
  - by rewrite scored_other, Hv.
  - by rewrite scored_mean.
  - by rewrite scored_std_dev.
Qed.

(** X19. When nothing is flagged, the export still writes its file: the header
    and no line, in place of whatever an earlier export had left there. *)
Theorem export_with_nothing_flagged_writes_header_only data c (dataset_name : string)
    (world : World) df ts anomalies world1 :
  heap world !! data = Some df → columns df !! "timestamp" = Some ts →
  detect_anomalies_isolation_forest data c world = (Returns anomalies, world1) →
  nrows anomalies = 0%nat →
  ∃ world2,
    save_anomalies_to_csv anomalies dataset_name world1 = (Returns (), world2)
    ∧ files world2 !! filename_for dataset_name
      = Some {| header := ["timestamp"; "value"; "mean"; "std_dev"]; rows := [] |}.
Proof.
  intros Hd Ht Hrun H0.
  destruct (returned_four_columns _ _ _ _ _ _ _ Hd Ht Hrun)
    as (fts & fvs & fms & fss & Hcols).
  rewrite save_anomalies_to_csv_run, Hcols, H0.
  eexists. split; [done|]. simpl. apply lookup_insert_eq.
Qed.

(** X20. The export button scores the current dataset with contamination 0.01,
    redraws the plot and exports the anomalies under the current name: the
    resulting state is the one [save_anomalies_to_csv] leaves after the
    scoring, the file of the current dataset exists, and the dictionary
    [current_data] is as it was. *)
Theorem export_button_scores_plots_and_writes fig ax (current_data : loc)
    (event : unit) s cur df ts anomalies w1 :
  dicts s !! current_data = Some cur →
  heap (world s) !! cur_data cur = Some df → columns df !! "timestamp" = Some ts →
  detect_anomalies_isolation_forest (cur_data cur) default_contamination (world s)
  = (Returns anomalies, w1) →
  ∃ s',
    save_anomalies fig ax current_data event s = (Returns (), s')
    ∧ world s' = (save_anomalies_to_csv anomalies (cur_name cur) w1).2
    ∧ is_Some (files (world s') !! filename_for (cur_name cur))
    ∧ stdout (world s')
      = stdout (world s) ++ ["Anomalies saved to " +:+ filename_for (cur_name cur)]
    ∧ dicts s' = dicts s
    ∧ is_Some (axes s' !! ax).
Proof.
  intros Hcur Hd Ht Hrun.
  destruct (returned_four_columns _ _ _ _ _ _ _ Hd Ht Hrun)
    as (fts & fvs & fms & fss & Hcols).
  destruct (detect_frame _ _ _ _ _ Hrun) as (_ & Hout & _).
  rewrite (save_anomalies_run _ _ _ _ _ _ Hcur), process_full_data_run, Hrun.
  destruct (detect_returns_inv _ _ _ _ _ _ Hd Hrun)
    as (col & xs & Hv & Hne & Hx & Hc & Hn & Ha & Hw).
  assert (Hd1 : heap (world (set_world w1 s)) !! cur_data cur
                = Some (scored df col (labels_of default_contamination xs))).
  { rewrite Hw. apply lookup_insert_eq. }
  assert (Hvis : ∃ arts,
            visualize_data fig ax (cur_data cur) anomalies (cur_name cur)
              (set_world w1 s)
            = (Returns (), drawn fig ax arts (set_world w1 s))).
  { rewrite visualize_data_run, Hd1, !scored_other, Ht, Hv by done.
    destruct (frame_empty anomalies); [eauto|].
    rewrite Ha, !getitem_mask_lookup, !scored_other, Ht, Hv by done. simpl. eauto. }
  destruct Hvis as [arts Hvis]. rewrite Hvis.
  assert (Hsave : ∀ w : World,
            save_anomalies_to_csv anomalies (cur_name cur) w
            = (Returns (),
               set_stdout
                 (stdout w ++ ["Anomalies saved to " +:+ filename_for (cur_name cur)])
                 (set_files
                    (<[filename_for (cur_name cur) :=
                         {| header := ["timestamp"; "value"; "mean"; "std_dev"];
                            rows := row_at [fts; fvs; fms; fss]
                                      <$> seq 0 (nrows anomalies) |}]> (files w)) w))).
  { intros w. by rewrite save_anomalies_to_csv_run, Hcols. }
  unfold in_world. rewrite !Hsave. simpl.
  eexists. split; [done|]. simpl. split; [done|].
  split; [rewrite lookup_insert_eq; eauto|]. split; [by rewrite Hout|].
  split; [done|]. rewrite lookup_insert_eq. eauto.
Qed.

(** X21. The export button writes nothing when the scoring or the plot fails: a
    scoring exception leaves the session untouched, and a table without a
    [timestamp] column is scored in place, the axes is cleared, and
    [KeyError('timestamp')] is raised before the export is reached. *)
Theorem export_button_writes_nothing_on_failure fig ax (current_data : loc)
    (event : unit) s cur df :
  dicts s !! current_data = Some cur → heap (world s) !! cur_data cur = Some df →
  (∀ e w', detect_anomalies_isolation_forest (cur_data cur) default_contamination
             (world s) = (Raises e, w') →
     save_anomalies fig ax current_data event s = (Raises e, s))
  ∧ (∀ anomalies w',
       detect_anomalies_isolation_forest (cur_data cur) default_contamination
         (world s) = (Returns anomalies, w') →
       columns df !! "timestamp" = None →
       ∃ s', save_anomalies fig ax current_data event s
             = (Raises (KeyError "timestamp"), s')
         ∧ files (world s') = files (world s)
         ∧ stdout (world s') = stdout (world s)
         ∧ world s' = w' ∧ axes s' !! ax = Some []).
Proof.
  intros Hcur Hd. split.
  - intros e w' Hrun.
    by rewrite (save_anomalies_run _ _ _ _ _ _ Hcur), process_full_data_run, Hrun.
  - intros anomalies w' Hrun Ht.
    destruct (detect_frame _ _ _ _ _ Hrun) as (Hfi & Hout & _).
    rewrite (save_anomalies_run _ _ _ _ _ _ Hcur), process_full_data_run, Hrun.
    destruct (detect_returns_inv _ _ _ _ _ _ Hd Hrun)
      as (col & xs & Hv & Hne & Hx & Hc & Hn & Ha & Hw).
    assert (Hd1 : heap (world (set_world w' s)) !! cur_data cur
                  = Some (scored df col (labels_of default_contamination xs))).
    { rewrite Hw. apply lookup_insert_eq. }
    rewrite visualize_data_run, Hd1, scored_other, Ht by done.
    eexists. split; [done|]. simpl. split; [done|]. split; [done|].
    split; [done|]. apply lookup_insert_eq.
Qed.

End ExportButton.

(** ** Pressing the export button again *)

Section ExportAgain.

Context {SK : Sklearn}.

Implicit Types (s : Session) (df anomalies : DataFrame) (fig ax data : loc)
  (cur : Current).

Lemma set_heap_same data (w : World) df :
  heap w !! data = Some df → set_heap (<[data := df]> (heap w)) w = w.
Proof. intros H. rewrite (insert_id _ _ _ H). apply set_heap_id. Qed.

(** A state whose table is the one a scoring call left is a fixed point of
    the scoring: the same anomalies, and no change. *)
Lemma detect_fixed_point data c (w w1 w2 : World) anomalies :
  detect_anomalies_isolation_forest data c w = (Returns anomalies, w1) →
  heap w2 !! data = heap w1 !! data →
  detect_anomalies_isolation_forest data c w2 = (Returns anomalies, w2).
Proof.
  intros Hrun Hh.
  destruct (heap w !! data) as [df|] eqn:Hd.
  2: { rewrite detect_run, Hd in Hrun. done. }
  destruct (detect_returns_inv _ _ _ _ _ _ Hd Hrun)
    as (col & xs & Hv & Hne & Hx & Hc & Hn & -> & ->).
  simpl in Hh. rewrite lookup_insert_eq in Hh.
  rewrite (detect_returns data c w2 (scored df col (labels_of c xs)) col xs Hh).
  - rewrite scored_idem. by rewrite (set_heap_same _ _ _ Hh).
  - by rewrite scored_other.
  - done.
  - done.
  - done.
  - by apply valid_contamination_true.
Qed.

Lemma visualize_data_outcome fig ax data anomalies (dataset_name : string) s1 s2 :
  heap (world s1) !! data = heap (world s2) !! data →
  (visualize_data fig ax data anomalies dataset_name s1).1
  = (visualize_data fig ax data anomalies dataset_name s2).1.
Proof.
  intros Hh. rewrite !visualize_data_run, Hh.
  destruct (heap (world s2) !! data) as [df|]; [|done].
  destruct (columns df !! "timestamp"); [|done].
  destruct (columns df !! "value"); [|done].
  destruct (frame_empty anomalies); [done|].
  destruct (columns anomalies !! "timestamp"); [|done].
  by destruct (columns anomalies !! "value").
Qed.

Lemma save_anomalies_to_csv_again anomalies (dataset_name : string) (w w' : World)
    (r : outcome unit) :
  save_anomalies_to_csv anomalies dataset_name w = (r, w') →
  heap w' = heap w
  ∧ ∃ w'', save_anomalies_to_csv anomalies dataset_name w' = (r, w'')
      ∧ files w'' = files w' ∧ heap w'' = heap w'.
Proof.
  rewrite !save_anomalies_to_csv_run.
  destruct (getitem_list anomalies _) as [cols|e]; intros [= <- <-].
  - split; [done|]. eexists. split; [done|]. simpl. by rewrite insert_insert_eq.
  - split; [done|]. eexists. done.
Qed.

Lemma save_anomalies_again fig ax (current_data : loc) s (r : outcome unit) s' :
  save_anomalies fig ax current_data () s = (r, s') →
  files (world (save_anomalies fig ax current_data () s').2) = files (world s')
  ∧ heap (world (save_anomalies fig ax current_data () s').2) = heap (world s').
Proof.
  intros H1.
  destruct (dicts s !! current_data) as [cur|] eqn:Hcur.
  2: { assert (Hs : save_anomalies fig ax current_data () s
                    = (Raises (NameError "unbound reference"), s)).
       { unfold save_anomalies. rewrite grun_bind. unfold dict_get at 1.
         by rewrite Hcur. }
       rewrite Hs in H1. injection H1 as _ <-. by rewrite Hs. }
  rewrite (save_anomalies_run _ _ _ _ _ _ Hcur), process_full_data_run in H1.
  destruct (detect_anomalies_isolation_forest (cur_data cur) default_contamination
              (world s)) as [[a|e] w1] eqn:Hrun.
  2: { injection H1 as _ <-.
       rewrite (save_anomalies_run _ _ _ _ _ _ Hcur), process_full_data_run.
       by rewrite Hrun. }
  destruct (visualize_data fig ax (cur_data cur) a (cur_name cur) (set_world w1 s))
    as [r1 s1] eqn:Hvis.
  destruct (visualize_data_frame _ _ _ _ _ _ _ _ Hvis) as (Hw1 & Hdi1 & _).
  simpl in Hw1, Hdi1.
  assert (Hsecond : ∀ s2, dicts s2 = dicts s → heap (world s2) = heap w1 →
            save_anomalies fig ax current_data () s2
            = match visualize_data fig ax (cur_data cur) a (cur_name cur) s2 with
              | (Returns _, s3) =>
                  in_world (save_anomalies_to_csv a (cur_name cur)) s3
              | (Raises e, s3) => (Raises e, s3)
              end).
  { intros s2 Hdi Hhe.
    assert (Hcur' : dicts s2 !! current_data = Some cur) by (by rewrite Hdi).
    rewrite (save_anomalies_run _ _ _ _ _ _ Hcur'), process_full_data_run.
    rewrite (detect_fixed_point _ _ _ _ (world s2) _ Hrun) by (by rewrite Hhe).
    rewrite set_world_id.
    by destruct (visualize_data fig ax (cur_data cur) a (cur_name cur) s2)
      as [[[]|e] s3]. }
  destruct r1 as [[]|e1].
  - unfold in_world in H1.
    destruct (save_anomalies_to_csv a (cur_name cur) (world s1)) as [r2 w2] eqn:Hsave.
    injection H1 as _ <-.
    destruct (save_anomalies_to_csv_again _ _ _ _ _ Hsave)
      as (Hh2 & w3 & Hsave' & Hf3 & Hh3).
    assert (Hdi2 : dicts (set_world w2 s1) = dicts s) by exact Hdi1.
    assert (Hhe2 : heap (world (set_world w2 s1)) = heap w1).
    { simpl. by rewrite Hh2, Hw1. }
    rewrite (Hsecond _ Hdi2 Hhe2).
    pose proof (visualize_data_outcome fig ax (cur_data cur) a (cur_name cur)
                  (set_world w2 s1) (set_world w1 s)) as Hout.
    rewrite Hvis in Hout. simpl in Hout.
    destruct (visualize_data fig ax (cur_data cur) a (cur_name cur) (set_world w2 s1))
      as [r3 s3] eqn:Hvis3.
    destruct (visualize_data_frame _ _ _ _ _ _ _ _ Hvis3) as (Hw3 & _).
    simpl in Hw3, Hout. rewrite Hout by (by rewrite Hh2, Hw1).
    unfold in_world. rewrite Hw3, Hsave'. simpl. by rewrite Hf3, Hh3.
  - injection H1 as _ <-.
    assert (Hhe2 : heap (world s1) = heap w1) by (by rewrite Hw1).
    rewrite (Hsecond _ Hdi1 Hhe2).
    pose proof (visualize_data_outcome fig ax (cur_data cur) a (cur_name cur)
                  s1 (set_world w1 s)) as Hout.
    rewrite Hvis in Hout. simpl in Hout.
    destruct (visualize_data fig ax (cur_data cur) a (cur_name cur) s1)
      as [r3 s3] eqn:Hvis3.
    destruct (visualize_data_frame _ _ _ _ _ _ _ _ Hvis3) as (Hw3 & _).
    simpl in Hout. rewrite Hout by (by rewrite Hw1). simpl. by rewrite Hw3.
Qed.

(** X22. Pressing the export button a second time, with nothing in between,
    leaves the files and the tables exactly as the first press left them:
    the table was scored in place, scoring it again changes nothing, and the
    export writes the same file again. *)
Theorem export_button_twice_leaves_files_and_tables_as_once fig ax
    (current_data : loc) s :
  files (world (click (save_anomalies fig ax current_data)
                  (click (save_anomalies fig ax current_data) s)))
  = files (world (click (save_anomalies fig ax current_data) s))
  ∧ heap (world (click (save_anomalies fig ax current_data)
                   (click (save_anomalies fig ax current_data) s)))
    = heap (world (click (save_anomalies fig ax current_data) s)).
Proof.
  unfold click.
  destruct (save_anomalies fig ax current_data () s) as [r s'] eqn:H1. simpl.
  by apply (save_anomalies_again fig ax current_data s r s').
Qed.

End ExportAgain.

(** ** The further properties at concrete inputs *)

Lemma main_datasets_NoDup : NoDup main_datasets.*1.
Proof.
  repeat (apply NoDup_cons; split;
          [rewrite ?elem_of_cons, ?elem_of_nil; intuition discriminate|]).
  apply NoDup_nil_2.
Qed.

Lemma session_of_dict df :
  dicts (session_of df) !! 0%nat
  = Some {| cur_name := "Server CPU Load"; cur_data := 0%nat |}.
Proof. apply lookup_insert_eq. Qed.

Lemma session_of_heap df : heap (world (session_of df)) !! 0%nat = Some df.
Proof. apply (world_of_heap). Qed.

Lemma default_contamination_valid : 0 < default_contamination ∧ default_contamination <= 1 / 2.
Proof. unfold default_contamination. lra. Qed.

Lemma scenario_scored_columns :
  columns scenario_scored !! "timestamp" = Some (Int <$> [10; 20; 30; 40; 50; 60]%Z)
  ∧ columns scenario_scored !! "value" = Some (Float <$> scenario)
  ∧ columns scenario_scored !! "mean"
    = Some (Rolling.rolling 5 1 Rolling.mean (Float <$> scenario))
  ∧ columns scenario_scored !! "std_dev"
    = Some (Rolling.rolling 5 1 Rolling.std (Float <$> scenario)).
Proof.
  unfold scenario_scored. rewrite !(scored_other) by done.
  rewrite scenario_frame_timestamp, scenario_frame_value.
  by rewrite (scored_mean), (scored_std_dev).
Qed.

Lemma scenario_scored_export (dataset_name : string) (w : World) :
  save_anomalies_to_csv scenario_scored dataset_name w
  = (Returns (), (save_anomalies_to_csv scenario_scored dataset_name w).2).
Proof.
  destruct scenario_scored_columns as (Ht & Hv & Hm & Hs).
  rewrite !(save_anomalies_to_csv_run).
  by rewrite (getitem_list_four _ _ _ _ _ Ht Hv Hm Hs).
Qed.

Lemma calm_run :
  detect_anomalies_isolation_forest 0%nat (1 / 6)
    (world_of (SK := stump) 0%Z calm_frame)
  = (Returns (getitem_mask (scored calm_frame (Float <$> [1; 2])
                              (labels_of (SK := stump) (1 / 6) [1; 2]))
                (eq_scalar (-1) (Int <$> labels_of (SK := stump) (1 / 6) [1; 2]))),
     set_heap (<[0%nat := scored calm_frame (Float <$> [1; 2])
                             (labels_of (SK := stump) (1 / 6) [1; 2])]>
                 (heap (world_of (SK := stump) 0%Z calm_frame)))
       (world_of (SK := stump) 0%Z calm_frame)).
Proof. apply (detect_frame_of); [done|lra]. Qed.

Lemma calm_labels : labels_of (SK := stump) (1 / 6) [1; 2] = [1; 1]%Z.
Proof.
  unfold labels_of, label_of. cbn.
  repeat match goal with
         | |- context [Rlt_dec ?a ?b] => destruct (Rlt_dec a b); try lra
         end.
  done.
Qed.

(** X1 on a table that holds timestamps only. *)
Lemma scoring_without_value_column_raises_KeyError_witness :
  heap (world_of (SK := stump) 0%Z no_value_frame) !! 0%nat = Some no_value_frame
  ∧ ∃ msg,
      detect_anomalies_isolation_forest 0%nat (1 / 100)
        (world_of (SK := stump) 0%Z no_value_frame)
      = (Raises (KeyError msg), world_of (SK := stump) 0%Z no_value_frame).
Proof.
  assert (H1 := world_of_heap (SK := stump) 0%Z no_value_frame).
  split; [exact H1|].
  apply (proj1 (scoring_without_value_column_raises_KeyError (SK := stump) 0%nat
                  (1 / 100) (world_of (SK := stump) 0%Z no_value_frame)
                  no_value_frame H1)).
  split; [|done]. unfold no_value_frame. simpl.
  by rewrite lookup_insert_ne, lookup_empty.
Defined.

(** X3 on the scenario batch with contamination 1/6: the call returns. *)
Lemma scoring_returns_only_on_good_input_and_raising_changes_nothing_witness :
  heap scenario_world !! 0%nat = Some scenario_frame
  ∧ ∃ col, columns scenario_frame !! "value" = Some col ∧ col ≠ [].
Proof.
  assert (H1 := scenario_world_heap). split; [exact H1|].
  destruct (proj1 (scoring_returns_only_on_good_input_and_raising_changes_nothing
                     0%nat (1 / 6) scenario_world scenario_frame H1))
    as (col & Hv & Hne & _).
  - by rewrite scenario_run.
  - by exists col.
Defined.

(** X4 on the scenario batch. *)
Lemma anomaly_column_holds_only_minus_one_and_one_witness :
  heap scenario_world !! 0%nat = Some scenario_frame
  ∧ detect_anomalies_isolation_forest 0%nat (1 / 6) scenario_world
    = (Returns scenario_anomalies, scenario_world')
  ∧ ∃ df' labels,
      heap scenario_world' !! 0%nat = Some df'
      ∧ columns df' !! "anomaly" = Some labels
      ∧ Forall (λ cell, cell = Int (-1) ∨ cell = Int 1) labels.
Proof.
  assert (H1 := scenario_world_heap). assert (H2 := scenario_run).
  split; [exact H1|]. split; [exact H2|].
  destruct (anomaly_column_holds_only_minus_one_and_one 0%nat (1 / 6)
              scenario_world scenario_frame scenario_anomalies scenario_world' H1 H2)
    as (df' & labels & Hd & Ha & _ & Hall).
  exists df', labels. repeat split; assumption.
Defined.

(** X5 on the scenario batch. *)
Lemma returned_table_holds_only_flagged_rows_witness :
  heap scenario_world !! 0%nat = Some scenario_frame
  ∧ detect_anomalies_isolation_forest 0%nat (1 / 6) scenario_world
    = (Returns scenario_anomalies, scenario_world')
  ∧ (nrows scenario_anomalies ≤ nrows scenario_frame)%nat
  ∧ columns scenario_anomalies !! "anomaly"
    = Some (replicate (nrows scenario_anomalies) (Int (-1))).
Proof.
  assert (H1 := scenario_world_heap). assert (H2 := scenario_run).
  split; [exact H1|]. split; [exact H2|].
  destruct (returned_table_holds_only_flagged_rows 0%nat (1 / 6)
              scenario_world scenario_frame scenario_anomalies scenario_world' H1 H2)
    as (col & xs & _ & _ & _ & Hle & Ha & _).
  split; assumption.
Defined.

(** X6 on the scenario batch. *)
Lemma returned_columns_are_subsequences_witness :
  heap scenario_world !! 0%nat = Some scenario_frame
  ∧ detect_anomalies_isolation_forest 0%nat (1 / 6) scenario_world
    = (Returns scenario_anomalies, scenario_world')
  ∧ ∃ df', heap scenario_world' !! 0%nat = Some df'
      ∧ ∀ name, is_Some (columns scenario_anomalies !! name)
                ↔ is_Some (columns df' !! name).
Proof.
  assert (H1 := scenario_world_heap). assert (H2 := scenario_run).
  split; [exact H1|]. split; [exact H2|].
  destruct (returned_columns_are_subsequences 0%nat (1 / 6)
              scenario_world scenario_frame scenario_anomalies scenario_world' H1 H2)
    as (df' & Hd & Hdom & _).
  exists df'. split; assumption.
Defined.


(** X9 on the scenario table before it is scored: it has no [mean] column. *)
Lemma export_of_a_table_missing_a_column_raises_KeyError_witness :
  "mean" ∈ ["timestamp"; "value"; "mean"; "std_dev"]
  ∧ columns scenario_frame !! "mean" = None
  ∧ ∃ msg,
      save_anomalies_to_csv scenario_frame "Server CPU Load" scenario_world
      = (Raises (KeyError msg), scenario_world).
Proof.
  assert (H1 : "mean" ∈ ["timestamp"; "value"; "mean"; "std_dev"]).
  { apply list_elem_of_further, list_elem_of_further, list_elem_of_here. }
  assert (H2 : columns scenario_frame !! "mean" = None).
  { unfold scenario_frame, frame_of. simpl.
    by rewrite !lookup_insert_ne, lookup_empty. }
  split; [exact H1|]. split; [exact H2|].
  destruct (export_of_a_table_missing_a_column_raises_KeyError
              scenario_frame "Server CPU Load" scenario_world "mean" H1 H2)
    as (msg & Hrun).
  exists msg. exact Hrun.
Defined.

(** X10 on the scored scenario table, exported as the CPU dataset. *)
Lemma export_writes_one_line_per_row_and_nothing_else_witness :
  columns scenario_scored !! "timestamp" = Some (Int <$> [10; 20; 30; 40; 50; 60]%Z)
  ∧ columns scenario_scored !! "value" = Some (Float <$> scenario)
  ∧ ∃ world' lines,
      save_anomalies_to_csv scenario_scored "Server CPU Load" scenario_world
      = (Returns (), world')
      ∧ length lines = 6%nat
      ∧ files world' !! "cpu_anomalies.csv"
        = Some {| header := ["timestamp"; "value"; "mean"; "std_dev"]; rows := lines |}.
Proof.
  destruct scenario_scored_columns as (Ht & Hv & Hm & Hs).
  split; [exact Ht|]. split; [exact Hv|].
  destruct (export_writes_one_line_per_row_and_nothing_else
              scenario_scored "Server CPU Load" scenario_world _ _ _ _ Ht Hv Hm Hs)
    as (world' & lines & Hrun & Hfile & Hlen & _).
  - reflexivity.
  - reflexivity.
  - apply rolling_length.
  - apply rolling_length.
  - exists world', lines. split; [exact Hrun|]. split; [exact Hlen|]. exact Hfile.
Defined.

(** X11 for the taxi dataset and a name the export does not know: both go to the same file. *)
Lemma later_export_overwrites_same_file_witness :
  save_anomalies_to_csv scenario_scored "NYC Taxi Demand" scenario_world
  = (Returns (),
     (save_anomalies_to_csv scenario_scored "NYC Taxi Demand" scenario_world).2)
  ∧ (filename_for "NYC Taxi Demand" = filename_for "Some Other Dataset"
     ↔ "NYC Taxi Demand" = "Some Other Dataset"
       ∨ ("NYC Taxi Demand" ≠ "Server CPU Load"
          ∧ "NYC Taxi Demand" ≠ "Ambient System Temperature"
          ∧ "Some Other Dataset" ≠ "Server CPU Load"
          ∧ "Some Other Dataset" ≠ "Ambient System Temperature")).
Proof.
  assert (H1 := scenario_scored_export "NYC Taxi Demand" scenario_world).
  assert (H2 := scenario_scored_export "Some Other Dataset"
                  (save_anomalies_to_csv scenario_scored "NYC Taxi Demand"
                     scenario_world).2).
  split; [exact H1|].
  exact (proj2 (proj2 (later_export_overwrites_same_file
                         scenario_scored scenario_scored
                         "NYC Taxi Demand" "Some Other Dataset" _ _ _ H1 H2))).
Defined.

Lemma scenario_zero_contamination_run :
  ∃ msg, detect_anomalies_isolation_forest (SK := stump) 0%nat 0
           (world (session_of scenario_frame))
         = (Raises (ValueError msg), world (session_of scenario_frame)).
Proof.
  change (world (session_of scenario_frame))
    with (world_of (SK := stump) 0%Z scenario_frame).
  rewrite detect_run, world_of_heap, scenario_frame_value.
  assert (Hvalid : valid_contamination 0 = false).
  { destruct (valid_contamination 0) eqn:E; [|done].
    apply valid_contamination_true in E. lra. }
  rewrite Hvalid. eauto.
Qed.

Lemma empty_default_run :
  ∃ msg, detect_anomalies_isolation_forest (SK := stump) 0%nat default_contamination
           (world (session_of empty_frame))
         = (Raises (ValueError msg), world (session_of empty_frame)).
Proof.
  change (world (session_of empty_frame))
    with (world_of (SK := stump) 0%Z empty_frame).
  rewrite detect_run, world_of_heap, empty_frame_value.
  destruct (valid_contamination default_contamination); simpl; eauto.
Qed.

Lemma scenario_default_run :
  detect_anomalies_isolation_forest (SK := stump) 0%nat default_contamination
    (world (session_of scenario_frame))
  = (Returns (getitem_mask (scored scenario_frame (Float <$> scenario)
                              (labels_of (SK := stump) default_contamination scenario))
                (eq_scalar (-1)
                   (Int <$> labels_of (SK := stump) default_contamination scenario))),
     set_heap (<[0%nat := scored scenario_frame (Float <$> scenario)
                             (labels_of (SK := stump) default_contamination scenario)]>
                 (heap (world_of (SK := stump) 0%Z scenario_frame)))
       (world_of (SK := stump) 0%Z scenario_frame)).
Proof.
  apply (detect_frame_of (SK := stump)); [done|apply default_contamination_valid].
Qed.

Lemma no_timestamp_frame_timestamp : columns no_timestamp_frame !! "timestamp" = None.
Proof. unfold no_timestamp_frame. simpl. by rewrite lookup_insert_ne, lookup_empty. Qed.

Lemma main_session_dict :
  dicts main_session !! 0%nat
  = Some {| cur_name := "Server CPU Load"; cur_data := 1%nat |}.
Proof. apply lookup_insert_eq. Qed.

(** X12 on the scenario table with an empty table of anomalies. *)
Lemma plot_is_rebuilt_from_scratch_witness :
  heap (world (session_of scenario_frame)) !! 0%nat = Some scenario_frame
  ∧ frame_empty no_rows = true
  ∧ ∃ s',
      visualize_data 7%nat 8%nat 0%nat no_rows "Server CPU Load" (session_of scenario_frame)
      = (Returns (), s')
      ∧ axes s' !! 8%nat
        = Some (Plot (Int <$> [10; 20; 30; 40; 50; 60]%Z) (Float <$> scenario)
                  "Data Stream" "blue" :: decorations "Server CPU Load")
      ∧ redraws s' !! 7%nat = Some 1%nat.
Proof.
  assert (H1 := session_of_heap scenario_frame).
  assert (H2 : frame_empty no_rows = true) by reflexivity.
  split; [exact H1|]. split; [exact H2|].
  destruct (plot_is_rebuilt_from_scratch 7%nat 8%nat 0%nat no_rows "Server CPU Load"
              (session_of scenario_frame) scenario_frame _ _ H1
              scenario_frame_timestamp scenario_frame_value (or_introl H2))
    as (marks & s' & Hrun & Hax & Hnone & _ & _ & Hfig & _).
  exists s'. split; [exact Hrun|]. split.
  - rewrite (Hnone H2) in Hax. exact Hax.
  - exact Hfig.
Defined.

(** X13 on a table that holds values only. *)
Lemma plot_without_timestamp_column_clears_and_raises_witness :
  heap (world (session_of no_timestamp_frame)) !! 0%nat = Some no_timestamp_frame
  ∧ columns no_timestamp_frame !! "timestamp" = None
  ∧ ∃ s',
      visualize_data 7%nat 8%nat 0%nat no_rows "Server CPU Load" (session_of no_timestamp_frame)
      = (Raises (KeyError "timestamp"), s')
      ∧ axes s' !! 8%nat = Some [].
Proof.
  assert (H1 := session_of_heap no_timestamp_frame).
  assert (H2 := no_timestamp_frame_timestamp).
  split; [exact H1|]. split; [exact H2|].
  destruct (plot_without_timestamp_column_clears_and_raises 7%nat 8%nat 0%nat no_rows
              "Server CPU Load" (session_of no_timestamp_frame) no_timestamp_frame
              H1 H2)
    as (s' & Hrun & Hax & _).
  exists s'. split; assumption.
Defined.

(** X14 on the scenario batch with contamination 0. *)
Lemma scoring_with_plot_failure_modes_witness :
  heap (world (session_of scenario_frame)) !! 0%nat = Some scenario_frame
  ∧ ∃ msg,
      process_full_data 7%nat 8%nat 0%nat "Server CPU Load" 0
        (session_of scenario_frame)
      = (Raises (ValueError msg), session_of scenario_frame).
Proof.
  assert (H1 := session_of_heap scenario_frame). split; [exact H1|].
  destruct scenario_zero_contamination_run as (msg & Hmsg).
  exists msg.
  exact (proj1 (scoring_with_plot_failure_modes 7%nat 8%nat 0%nat "Server CPU Load" 0
                  (session_of scenario_frame) scenario_frame H1) _ _ Hmsg).
Defined.

(** X15 on the scenario batch with contamination 1/6. *)
Lemma scoring_with_plot_shows_batch_and_flagged_rows_witness :
  heap (world (session_of scenario_frame)) !! 0%nat = Some scenario_frame
  ∧ ∃ marks s',
      process_full_data 7%nat 8%nat 0%nat "NYC Taxi Demand" (1 / 6) (session_of scenario_frame)
      = (Returns scenario_anomalies, s')
      ∧ world s' = scenario_world'
      ∧ axes s' !! 8%nat
        = Some (Plot (Int <$> [10; 20; 30; 40; 50; 60]%Z) (Float <$> scenario)
                  "Data Stream" "blue" :: marks ++ decorations "NYC Taxi Demand").
Proof.
  assert (H1 := session_of_heap scenario_frame). split; [exact H1|].
  destruct (scoring_with_plot_shows_batch_and_flagged_rows 7%nat 8%nat 0%nat "NYC Taxi Demand"
              (1 / 6) (session_of scenario_frame) scenario_frame _
              scenario_anomalies scenario_world' H1 scenario_frame_timestamp
              scenario_run)
    as (col & marks & s' & Hcol & Hrun & Hw & Hax & _).
  rewrite scenario_frame_value in Hcol. injection Hcol as <-.
  exists marks, s'. split; [exact Hrun|]. split; assumption.
Defined.

(** X16 with a list of datasets that lacks the current name. *)
Lemma switch_with_unknown_current_name_raises_ValueError_witness :
  dicts (session_of scenario_frame) !! 0%nat
  = Some {| cur_name := "Server CPU Load"; cur_data := 0%nat |}
  ∧ ("Server CPU Load" ∉ [("NYC Taxi Demand", 0%nat)].*1)
  ∧ ∃ msg,
      switch_dataset 7%nat 8%nat 0%nat [("NYC Taxi Demand", 0%nat)] ()
        (session_of scenario_frame)
      = (Raises (ValueError msg), session_of scenario_frame).
Proof.
  assert (H1 := session_of_dict scenario_frame).
  assert (H2 : "Server CPU Load" ∉ [("NYC Taxi Demand", 0%nat)].*1).
  { simpl. rewrite elem_of_cons, elem_of_nil. intuition discriminate. }
  split; [exact H1|]. split; [exact H2|].
  exact (switch_with_unknown_current_name_raises_ValueError 7%nat 8%nat 0%nat
           [("NYC Taxi Demand", 0%nat)] () (session_of scenario_frame) _ H1 H2).
Defined.

(** X17 on the program's three datasets, from the first. *)
Lemma switch_moves_to_the_next_dataset_witness :
  NoDup main_datasets.*1
  ∧ main_datasets !! 0%nat = Some ("Server CPU Load", 1%nat)
  ∧ main_datasets !! ((0 + 1) `mod` length main_datasets)%nat
    = Some ("Ambient System Temperature", 2%nat)
  ∧ ∃ r s',
      switch_dataset 7%nat 8%nat 0%nat main_datasets () main_session = (r, s')
      ∧ dicts s' !! 0%nat
        = Some {| cur_name := "Ambient System Temperature"; cur_data := 2%nat |}
      ∧ stdout (world s') = ["Switched to Ambient System Temperature Dataset"].
Proof.
  assert (H1 := main_datasets_NoDup).
  assert (H2 : main_datasets !! 0%nat = Some ("Server CPU Load", 1%nat))
    by reflexivity.
  assert (H3 : main_datasets !! ((0 + 1) `mod` length main_datasets)%nat
               = Some ("Ambient System Temperature", 2%nat)) by reflexivity.
  split; [exact H1|]. split; [exact H2|]. split; [exact H3|].
  destruct (switch_moves_to_the_next_dataset 7%nat 8%nat 0%nat main_datasets () main_session
              _ 0%nat 1%nat _ _ main_session_dict H1 H2 H3)
    as (r & s' & Hrun & Hd & _ & Hout & _).
  exists r, s'. split; [exact Hrun|]. split; [exact Hd|]. exact Hout.
Defined.

(** X18 on the program's three datasets: three clicks lead back to the first. *)
Lemma switching_cycles_through_the_datasets_witness :
  NoDup main_datasets.*1
  ∧ main_datasets !! 0%nat = Some ("Server CPU Load", 1%nat)
  ∧ dicts (Nat.iter 3 (click (switch_dataset 7%nat 8%nat 0%nat main_datasets)) main_session)
      !! 0%nat
    = Some {| cur_name := "Server CPU Load"; cur_data := 1%nat |}.
Proof.
  assert (H1 := main_datasets_NoDup).
  assert (H2 : main_datasets !! 0%nat = Some ("Server CPU Load", 1%nat))
    by reflexivity.
  split; [exact H1|]. split; [exact H2|].
  exact (proj2 (switching_cycles_through_the_datasets 7%nat 8%nat 0%nat main_datasets
                  main_session _ 0%nat main_session_dict H1 H2)).
Defined.

(** X19 on a batch the stand-in estimator flags nothing in. *)
Lemma export_with_nothing_flagged_writes_header_only_witness :
  heap (world_of (SK := stump) 0%Z calm_frame) !! 0%nat = Some calm_frame
  ∧ columns calm_frame !! "timestamp" = Some (Int <$> [10; 20]%Z)
  ∧ ∃ anomalies world1 world2,
      detect_anomalies_isolation_forest 0%nat (1 / 6)
        (world_of (SK := stump) 0%Z calm_frame)
      = (Returns anomalies, world1)
      ∧ nrows anomalies = 0%nat
      ∧ save_anomalies_to_csv anomalies "Server CPU Load" world1
        = (Returns (), world2)
      ∧ files world2 !! "cpu_anomalies.csv"
        = Some {| header := ["timestamp"; "value"; "mean"; "std_dev"];
                  rows := [] |}.
Proof.
  assert (H1 := world_of_heap (SK := stump) 0%Z calm_frame).
  assert (H2 : columns calm_frame !! "timestamp" = Some (Int <$> [10; 20]%Z))
    by apply frame_of_timestamp.
  assert (H3 := calm_run).
  assert (H4 : nrows (getitem_mask (scored calm_frame (Float <$> [1; 2])
                                      (labels_of (SK := stump) (1 / 6) [1; 2]))
                        (eq_scalar (-1)
                           (Int <$> labels_of (SK := stump) (1 / 6) [1; 2])))
               = 0%nat).
  { rewrite calm_labels. reflexivity. }
  split; [exact H1|]. split; [exact H2|].
  destruct (export_with_nothing_flagged_writes_header_only 0%nat (1 / 6)
              "Server CPU Load" _ calm_frame _ _ _ H1 H2 H3 H4)
    as (world2 & Hsave & Hfile).
  eexists _, _, world2. split; [exact H3|]. split; [exact H4|].
  split; [exact Hsave|]. exact Hfile.
Defined.

(** X20 on the scenario table as the CPU dataset. *)
Lemma export_button_scores_plots_and_writes_witness :
  dicts (session_of scenario_frame) !! 0%nat
  = Some {| cur_name := "Server CPU Load"; cur_data := 0%nat |}
  ∧ heap (world (session_of scenario_frame)) !! 0%nat = Some scenario_frame
  ∧ ∃ s',
      save_anomalies 7%nat 8%nat 0%nat () (session_of scenario_frame) = (Returns (), s')
      ∧ is_Some (files (world s') !! "cpu_anomalies.csv")
      ∧ stdout (world s') = ["Anomalies saved to cpu_anomalies.csv"].
Proof.
  assert (H1 := session_of_dict scenario_frame).
  assert (H2 := session_of_heap scenario_frame).
  split; [exact H1|]. split; [exact H2|].
  destruct (export_button_scores_plots_and_writes 7%nat 8%nat 0%nat () (session_of scenario_frame)
              {| cur_name := "Server CPU Load"; cur_data := 0%nat |}
              scenario_frame _ _ _ H1 H2 scenario_frame_timestamp
              scenario_default_run)
    as (s' & Hrun & _ & Hfile & Hout & _).
  exists s'. split; [exact Hrun|]. split; [exact Hfile|]. exact Hout.
Defined.

(** X21 on the batch with no observation. *)
Lemma export_button_writes_nothing_on_failure_witness :
  dicts (session_of empty_frame) !! 0%nat
  = Some {| cur_name := "Server CPU Load"; cur_data := 0%nat |}
  ∧ heap (world (session_of empty_frame)) !! 0%nat = Some empty_frame
  ∧ ∃ msg,
      save_anomalies 7%nat 8%nat 0%nat () (session_of empty_frame)
      = (Raises (ValueError msg), session_of empty_frame).
Proof.
  assert (H1 := session_of_dict empty_frame).
  assert (H2 := session_of_heap empty_frame).
  split; [exact H1|]. split; [exact H2|].
  destruct empty_default_run as (msg & Hmsg).
  exists msg.
  exact (proj1 (export_button_writes_nothing_on_failure 7%nat 8%nat 0%nat ()
                  (session_of empty_frame)
                  {| cur_name := "Server CPU Load"; cur_data := 0%nat |}
                  empty_frame H1 H2) _ _ Hmsg).
Defined.
